(** * Mentat: block-dialect header decoding, the file mutation engine
      and configuration lookup

    A shallow embedding of three modules of the [mentat] package:

    - [mentat/config_manager.py]        ([ConfigManager._get_key]),
    - [mentat/parsers/block_parser.py]  ([BlockParser._special_block],
                                         [BlockParser._add_code_block]),
    - [mentat/code_file_manager.py]     ([CodeFileManager.write_changes_to_files]
                                         and its helpers).

    Modelling conventions.

    - Python exceptions are values of [exn]; a function that may raise
      returns [Err A = exn + A].  [ValueError None] is a [ValueError]
      raised by a builtin conversion, whose message is the runtime's.
      Code that also mutates the outside world runs in the monad [M] of
      module [CodeFileManager]: the world reached when an exception is
      raised is returned together with the exception, because nothing is
      rolled back.
    - Python [int] is [Z]; [str] is [string]; [list] is [list]; a [dict]
      is a [gmap]; the key set of [code_context.files] is a [gset].
    - A path is identified with its normal form relative to the git root,
      so [git_root / p], [p.relative_to(git_root)] and
      [os.path.relpath(p, git_root)] all denote the same [Path] as [p].
      The disk is a finite map from paths to the text of regular files;
      directories are not represented ([mkdir(parents=True, exist_ok=True)]
      has no visible effect) and the only I/O failure represented is the
      absence of a file.
    - The texts on disk are taken without carriage return, so that
      [open(path, "r")] reads them as they are stored.
    - [logging.info] calls leave no trace in the model.

    The definitions come first, module by module, followed by the sample
    inputs; the properties and their proofs make up the second half:
    first the properties the specification states, then further
    properties of the same functions and of the functions around them
    (the parser hooks, [read_all_file_lines], the loading of the
    configuration). *)

From Stdlib Require Import ZArith Ascii String List.
From stdpp Require Import base gmap strings list fin_maps.

Local Open Scope string_scope.
Local Open Scope Z_scope.

(** ** Python values shared by the three modules *)

Inductive exn : Type :=
  | ValueError (msg : option string)
  | TypeError
  | KeyError
  | FileNotFoundError
  | MentatError (msg : string).

Definition Err (A : Type) : Type := exn + A.

#[global] Instance err_ret : MRet Err := fun A a => inr a.
#[global] Instance err_bind : MBind Err := fun A B k m =>
  match m with
  | inl e => inl e
  | inr a => k a
  end.

Definition raise {A : Type} (e : exn) : Err A := inl e.

Abbreviation Path := string.

(** The line feed, ["\n"]. *)
Definition LF : ascii := "010"%char.
Definition NL : string := String LF EmptyString.

(** [s.split("\n")]: always at least one piece. *)
Fixpoint split_lines (s : string) : list string :=
  match s with
  | EmptyString => [EmptyString]
  | String c rest =>
      if Ascii.eqb c LF then EmptyString :: split_lines rest
      else match split_lines rest with
           | [] => [String c EmptyString]
           | w :: ws => String c w :: ws
           end
  end.

(** ["\n".join(lines)]. *)
Fixpoint join_lines (lines : list string) : string :=
  match lines with
  | [] => EmptyString
  | [l] => l
  | l :: rest => l ++ NL ++ join_lines rest
  end.

(** A slice bound as Python normalises it against the length [n]:
    negative bounds count from the end, and everything is clamped. *)
Definition clamp_index (n i : Z) : Z :=
  if i <? 0 then Z.max 0 (i + n) else Z.min i n.

(** [l[lo:hi]]; [None] is an omitted (or [None]) bound. *)
Definition py_slice {A : Type} (lo hi : option Z) (l : list A) : list A :=
  let n := Z.of_nat (length l) in
  let a := match lo with Some i => clamp_index n i | None => 0 end in
  let b := match hi with Some j => clamp_index n j | None => n end in
  take (Z.to_nat (b - a)) (drop (Z.to_nat a) l).

(** [key in d] and [d[key]] on a dict. *)
Definition py_in {V : Type} (key : string) (d : gmap string V) : bool :=
  bool_decide (is_Some (d !! key)).

Definition getitem {V : Type} (d : gmap string V) (key : string) : Err V :=
  match d !! key with
  | Some v => inr v
  | None => raise KeyError
  end.

(** ** mentat/config_manager.py *)

Module ConfigManager.

Section Config.
(** The values of a configuration are whatever [json.load] produced
    ([Any] in the source); the three configurations are JSON objects. *)
Variable V : Type.

Record ConfigManager : Type := {
  user_config : gmap string V;
  project_config : gmap string V;
  default_config : gmap string V
}.

Definition _get_key (self : ConfigManager) (key : string) : Err V :=
  if py_in key (project_config self) then
    getitem (project_config self) key
  else if py_in key (user_config self) then
    getitem (user_config self) key
  else if py_in key (default_config self) then
    getitem (default_config self) key
  else
    raise (ValueError (Some ("No value for config key " ++ key ++ " found"))).
End Config.

Arguments user_config {V} _.
Arguments project_config {V} _.
Arguments default_config {V} _.
Arguments _get_key {V} _ _.

End ConfigManager.

(** ** The edit model (mentat/parsers/file_edit.py,
       mentat/parsers/change_display_helper.py) *)

Module FileActionType.
Inductive t : Type := CreateFile | UpdateFile | DeleteFile | RenameFile.
#[global] Instance eq_dec : EqDecision t.
Proof. solve_decision. Defined.
End FileActionType.

(** Modelled from the spec: the class [Replacement] of file_edit.py, built
    positionally as [Replacement(start, end, new_lines)].  The end of the
    range is whatever the caller passes, which for a header without
    [end-line] is Python's [None]. *)
Record Replacement : Type := mkReplacement {
  r_start : Z;
  r_end : option Z;
  new_lines : list string
}.

(** Modelled from the spec: the class [FileEdit] of file_edit.py, with the
    field names its users in block_parser.py and code_file_manager.py
    write. *)
Record FileEdit : Type := mkFileEdit {
  file_path : Path;
  replacements : list Replacement;
  is_creation : bool;
  is_deletion : bool;
  rename_file_path : option Path
}.

(** [file_edit.file_path = path]. *)
Definition set_file_path (file_edit : FileEdit) (path : Path) : FileEdit :=
  mkFileEdit path (replacements file_edit) (is_creation file_edit)
             (is_deletion file_edit) (rename_file_path file_edit).

(** Modelled from the spec: the class [DisplayInformation] of
    change_display_helper.py, with its fields in the order in which
    [_special_block] passes them; [_add_code_block] reads the sixth and
    seventh back as [first_changed_line] and [last_changed_line]. *)
Record DisplayInformation : Type := mkDisplayInformation {
  file_name : option Path;
  di_file_lines : list string;
  added_block : list string;
  removed_block : list string;
  file_action_type : FileActionType.t;
  first_changed_line : Z;
  last_changed_line : option Z;
  new_name : option Path
}.

(** ** mentat/parsers/block_parser.py *)

Module _BlockParserAction.
Inductive t : Type :=
  Insert | Replace | Delete | CreateFile | DeleteFile | RenameFile.
#[global] Instance eq_dec : EqDecision t.
Proof. solve_decision. Defined.

Definition value (a : t) : string :=
  match a with
  | Insert => "insert"
  | Replace => "replace"
  | Delete => "delete"
  | CreateFile => "create-file"
  | DeleteFile => "delete-file"
  | RenameFile => "rename-file"
  end.

Definition members : list t :=
  [Insert; Replace; Delete; CreateFile; DeleteFile; RenameFile].
End _BlockParserAction.

Module _BlockParserIndicator.
Inductive t : Type := Start | Code | End_.

Definition value (i : t) : string :=
  match i with
  | Start => "@@start"
  | Code => "@@code"
  | End_ => "@@end"
  end.

Definition members : list t := [Start; Code; End_].
End _BlockParserIndicator.

Module _BlockParserJsonKeys.
Inductive t : Type :=
  File | Action | Name | BeforeLine | AfterLine | StartLine | EndLine.

Definition value (k : t) : string :=
  match k with
  | File => "file"
  | Action => "action"
  | Name => "name"
  | BeforeLine => "insert-before-line"
  | AfterLine => "insert-after-line"
  | StartLine => "start-line"
  | EndLine => "end-line"
  end.
End _BlockParserJsonKeys.

(** The values [json.loads] puts in the header dict.  Floating-point
    numbers are left out; [JCompound] stands for an array or an object,
    whose contents no conversion of the decoder looks at. *)
Inductive json : Type :=
  | JNull
  | JBool (b : bool)
  | JInt (z : Z)
  | JStr (s : string)
  | JCompound.

Record _BlockParserDeserializedJson : Type := mkDeserializedJson {
  file : option Path;
  action : option _BlockParserAction.t;
  name : option Path;
  before_line : option Z;
  after_line : option Z;
  start_line : option Z;
  end_line : option Z
}.

Module BlockParser.

(** [str.strip()] on ASCII text: the characters Python calls whitespace. *)
Definition is_space (c : ascii) : bool :=
  let n := nat_of_ascii c in
  ((9 <=? n)%nat && (n <=? 13)%nat) || ((28 <=? n)%nat && (n <=? 32)%nat).

Fixpoint lstrip (s : string) : string :=
  match s with
  | EmptyString => EmptyString
  | String c rest => if is_space c then lstrip rest else s
  end.

Fixpoint rstrip (s : string) : string :=
  match s with
  | EmptyString => EmptyString
  | String c rest =>
      match rstrip rest with
      | EmptyString => if is_space c then EmptyString else String c EmptyString
      | rest' => String c rest'
      end
  end.

Definition strip (s : string) : string := lstrip (rstrip s).

(** [json_data.get(key, None)]: a JSON [null] is Python's [None] too. *)
Definition get (json_data : gmap string json) (key : _BlockParserJsonKeys.t)
  : option json :=
  match json_data !! _BlockParserJsonKeys.value key with
  | Some JNull => None
  | found => found
  end.

(** [Path(v)]. *)
Definition to_Path (v : json) : Err Path :=
  match v with
  | JStr s => mret s
  | _ => raise TypeError
  end.

(** [_BlockParserAction(v)]: lookup of an enum member by value. *)
Definition to_action (v : json) : Err _BlockParserAction.t :=
  match v with
  | JStr s =>
      match filter (λ a, _BlockParserAction.value a = s)
                   _BlockParserAction.members with
      | a :: _ => mret a
      | [] => raise (ValueError None)
      end
  | _ => raise (ValueError None)
  end.

Section Decoder.
(** [json.loads], and [int] applied to a [str]: both belong to the Python
    runtime and are parameters of the decoder. *)
Variable json_loads : string → Err (gmap string json).
Variable int_of_str : string → option Z.

(** [int(v)]. *)
Definition to_int (v : json) : Err Z :=
  match v with
  | JInt z => mret z
  | JBool b => mret (if b then 1 else 0)
  | JStr s =>
      match int_of_str s with
      | Some z => mret z
      | None => raise (ValueError None)
      end
  | _ => raise TypeError
  end.

(** [if self.x is not None: self.x = conv(self.x)]. *)
Definition convert {A : Type} (conv : json → Err A) (field : option json)
  : Err (option A) :=
  match field with
  | None => mret None
  | Some v => x ← conv v; mret (Some x)
  end.

(** [_BlockParserDeserializedJson.__init__]. *)
Definition deserialize (json_data : gmap string json)
  : Err _BlockParserDeserializedJson :=
  file ← convert to_Path (get json_data _BlockParserJsonKeys.File);
  action ← convert to_action (get json_data _BlockParserJsonKeys.Action);
  name ← convert to_Path (get json_data _BlockParserJsonKeys.Name);
  before_line ← convert to_int (get json_data _BlockParserJsonKeys.BeforeLine);
  after_line ← convert to_int (get json_data _BlockParserJsonKeys.AfterLine);
  start_line ← convert to_int (get json_data _BlockParserJsonKeys.StartLine);
  end_line ← convert to_int (get json_data _BlockParserJsonKeys.EndLine);
  mret (mkDeserializedJson file action name before_line after_line
                           start_line end_line).

(** [config.git_root / deserialized_json.file]; dividing by [None] is a
    [TypeError]. *)
Definition git_root_join (file : option Path) : Err Path :=
  match file with
  | Some p => mret p
  | None => raise TypeError
  end.

(** The [match] statement of [_special_block] (lines 108-138): the
    resolved [(starting_line, ending_line)] and the file action. *)
Definition resolve_action (deserialized_json : _BlockParserDeserializedJson)
  (act : _BlockParserAction.t) : Err (Z * option Z * FileActionType.t) :=
  match act with
  | _BlockParserAction.Insert =>
      starting_line ←
        match before_line deserialized_json with
        | Some before =>
            let starting_line := before - 1 in
            match after_line deserialized_json with
            | Some after =>
                if bool_decide (starting_line ≠ after)
                then raise (ValueError (Some "Insert line numbers invalid"))
                else mret starting_line
            | None => mret starting_line
            end
        | None =>
            match after_line deserialized_json with
            | Some after => mret after
            | None =>
                raise (ValueError (Some "Insert line number not specified"))
            end
        end;
      mret (starting_line, Some starting_line, FileActionType.UpdateFile)
  | _BlockParserAction.Replace | _BlockParserAction.Delete =>
      match start_line deserialized_json with
      | Some start =>
          mret (start - 1, end_line deserialized_json,
                FileActionType.UpdateFile)
      | None => raise TypeError
      end
  | _BlockParserAction.CreateFile =>
      mret (0, Some 0, FileActionType.CreateFile)
  | _BlockParserAction.DeleteFile =>
      mret (0, Some 0, FileActionType.DeleteFile)
  | _BlockParserAction.RenameFile =>
      mret (0, Some 0, FileActionType.RenameFile)
  end.

(** [BlockParser._special_block].  [file_lines] is
    [code_file_manager.file_lines]; [config] only supplies the git root. *)
Definition _special_block (file_lines : gmap Path (list string))
  (rename_map : gmap Path Path) (special_block : string)
  : Err (DisplayInformation * FileEdit * bool) :=
  let block := split_lines (strip special_block) in
  let json_lines := py_slice (Some 1) (Some (-1)) block in
  json_data ← json_loads (join_lines json_lines);
  deserialized_json ← deserialize json_data;
  match action deserialized_json with
  | None => raise (ValueError (Some ""))
  | Some act =>
      '(starting_line, ending_line, file_action) ←
        resolve_action deserialized_json act;
      file_lines ←
        (if bool_decide (file_action = FileActionType.CreateFile)
         then mret []
         else
           p ← git_root_join (file deserialized_json);
           getitem file_lines (default p (rename_map !! p)));
      let display_information :=
        mkDisplayInformation
          (file deserialized_json)
          file_lines
          []
          (py_slice (Some starting_line) ending_line file_lines)
          file_action
          starting_line
          ending_line
          (name deserialized_json) in
      let replacements :=
        if bool_decide (act = _BlockParserAction.Delete)
        then [mkReplacement starting_line ending_line []]
        else [] in
      p ← git_root_join (file deserialized_json);
      let file_edit :=
        mkFileEdit
          p
          replacements
          (bool_decide (file_action = FileActionType.CreateFile))
          (bool_decide (file_action = FileActionType.DeleteFile))
          (name deserialized_json) in
      let has_code :=
        bool_decide (last block =
                     Some (_BlockParserIndicator.value
                             _BlockParserIndicator.Code)) in
      mret (display_information, file_edit, has_code)
  end.
End Decoder.

(** [BlockParser._add_code_block]: the edit is mutated in place, so the
    model returns it. *)
Definition _add_code_block (special_block code_block : string)
  (display_information : DisplayInformation) (file_edit : FileEdit)
  : FileEdit :=
  mkFileEdit
    (file_path file_edit)
    (replacements file_edit ++
       [mkReplacement
          (first_changed_line display_information)
          (last_changed_line display_information)
          (py_slice None (Some (-2)) (split_lines code_block))])
    (is_creation file_edit)
    (is_deletion file_edit)
    (rename_file_path file_edit).

(** [BlockParser._could_be_special]: [cur_line] is the beginning of one
    of the three indicators. *)
Definition _could_be_special (cur_line : string) : bool :=
  existsb (fun to_match =>
             String.prefix cur_line (_BlockParserIndicator.value to_match))
          _BlockParserIndicator.members.

(** [BlockParser._starts_special]. *)
Definition _starts_special (line : string) : bool :=
  bool_decide (line = _BlockParserIndicator.value _BlockParserIndicator.Start).

(** [BlockParser._ends_special]. *)
Definition _ends_special (line : string) : bool :=
  bool_decide (line = _BlockParserIndicator.value _BlockParserIndicator.Code)
  || bool_decide
       (line = _BlockParserIndicator.value _BlockParserIndicator.End_).

(** [BlockParser._ends_code]. *)
Definition _ends_code (line : string) : bool :=
  bool_decide (line = _BlockParserIndicator.value _BlockParserIndicator.End_).

(** *** Vocabulary of the statements about the decoder *)

(** The JSON text [_special_block] hands to [json.loads]. *)
Definition header_text (special_block : string) : string :=
  join_lines (py_slice (Some 1) (Some (-1))
                       (split_lines (strip special_block))).

(** Whether the special block ends with the code marker. *)
Definition ends_with_code (special_block : string) : bool :=
  bool_decide (last (split_lines (strip special_block)) =
               Some (_BlockParserIndicator.value _BlockParserIndicator.Code)).

(** What [_special_block] returns for the deserialized header [d] with
    action [act], range [(s, e)], file action [fa], path [p] and snapshot
    [lines]. *)
Definition decoded (special_block : string)
  (d : _BlockParserDeserializedJson) (act : _BlockParserAction.t)
  (s : Z) (e : option Z) (fa : FileActionType.t) (p : Path)
  (lines : list string) : DisplayInformation * FileEdit * bool :=
  (mkDisplayInformation (Some p) lines [] (py_slice (Some s) e lines) fa s e
                        (name d),
   mkFileEdit p
     (if bool_decide (act = _BlockParserAction.Delete)
      then [mkReplacement s e []] else [])
     (bool_decide (fa = FileActionType.CreateFile))
     (bool_decide (fa = FileActionType.DeleteFile))
     (name d),
   ends_with_code special_block).

(** A string without line feed. *)
Fixpoint one_line (s : string) : bool :=
  match s with
  | EmptyString => true
  | String c rest => negb (Ascii.eqb c LF) && one_line rest
  end.

(** The text buffered for a code section when [_add_code_block] is
    called: each line received since the code marker, the end marker
    included, followed by its line feed. *)
Fixpoint buffered (lines : list string) : string :=
  match lines with
  | [] => EmptyString
  | l :: rest => l ++ NL ++ buffered rest
  end.

(** The number of line feeds in a text. *)
Fixpoint count_LF (s : string) : nat :=
  match s with
  | EmptyString => 0%nat
  | String c rest => ((if Ascii.eqb c LF then 1 else 0) + count_LF rest)%nat
  end.

End BlockParser.

(** ** mentat/code_file_manager.py *)

Module CodeFileManager.

(** Everything [write_changes_to_files] reads or changes. *)
Record World : Type := mkWorld {
  (** the regular files on disk and their text *)
  disk : gmap Path string;
  (** the keys of [code_context.files]; the value at a key [p] is always
      [CodeFile(p)] *)
  files : gset Path;
  (** [self.file_lines], the snapshot taken by [read_all_file_lines] *)
  file_lines : gmap Path (list string);
  (** what the user types at the successive prompts: [Some true] for yes,
      [Some false] for no, [None] for an empty reply *)
  replies : nat → option bool;
  (** how many prompts have been answered *)
  asked : nat;
  (** the texts and colours handed to [stream.send], oldest first *)
  sent : list (string * option string)
}.

Definition set_disk (f : gmap Path string → gmap Path string) (w : World)
  : World :=
  mkWorld (f (disk w)) (files w) (file_lines w) (replies w) (asked w) (sent w).

Definition set_files (f : gset Path → gset Path) (w : World) : World :=
  mkWorld (disk w) (f (files w)) (file_lines w) (replies w) (asked w) (sent w).

Definition M (A : Type) : Type := World → World * Err A.

#[global] Instance M_ret : MRet M := fun A a w => (w, inr a).
#[global] Instance M_bind : MBind M := fun A B k m w =>
  match m w with
  | (w', inl e) => (w', inl e)
  | (w', inr a) => k a w'
  end.

Definition throw {A : Type} (e : exn) : M A := fun w => (w, inl e).

Definition lift {A : Type} (r : Err A) : M A := fun w => (w, r).

Definition get_world : M World := fun w => (w, inr w).

(** [path.exists()]. *)
Definition path_exists (path : Path) : M bool :=
  fun w => (w, inr (bool_decide (is_Some (disk w !! path)))).

(** [with open(path, "w") as f: f.write(text)]. *)
Definition write_text (path : Path) (text : string) : M unit :=
  fun w => (set_disk (insert path text) w, inr tt).

(** [path.unlink()]. *)
Definition unlink (path : Path) : M unit :=
  fun w =>
    if bool_decide (is_Some (disk w !! path))
    then (set_disk (delete path) w, inr tt)
    else (w, inl FileNotFoundError).

(** [await stream.send(text, color=color)]. *)
Definition stream_send (text : string) (color : option string) : M unit :=
  fun w =>
    (mkWorld (disk w) (files w) (file_lines w) (replies w) (asked w)
             (sent w ++ [(text, color)]),
     inr tt).

(** Modelled from the spec: [ask_yes_no] of session_input.py, the
    confirmation capability, which "presents a yes/no question with a
    stated default and returns the user's boolean answer": an empty reply
    takes the default. *)
Definition ask_yes_no (default_yes : bool) : M bool :=
  fun w =>
    (mkWorld (disk w) (files w) (file_lines w) (replies w) (S (asked w))
             (sent w),
     inr (default default_yes (replies w (asked w)))).

(** [CodeFileManager.read_file]. *)
Definition read_file (path : Path) : M (list string) :=
  fun w =>
    match disk w !! path with
    | Some text => (w, inr (split_lines text))
    | None => (w, inl FileNotFoundError)
    end.

(** [CodeFileManager._add_file]. *)
Definition _add_file (abs_path : Path) : M unit :=
  (fun w => (set_files (fun fs => fs ∪ {[abs_path]}) w, inr tt)) ;;
  write_text abs_path "".

(** [CodeFileManager._delete_file]. *)
Definition _delete_file (abs_path : Path) : M unit :=
  (fun w => (set_files (fun fs => fs ∖ {[abs_path]}) w, inr tt)) ;;
  unlink abs_path.

Section Engine.
(** [FileEdit.get_updated_file_lines] lives in file_edit.py; the engine is
    defined over any implementation of it, including one that raises. *)
Variable get_updated_file_lines : FileEdit → list string → Err (list string).

(** Lines 73-88 of the loop body: the existence and scope checks, and the
    creation itself. *)
Definition check_target (file_edit : FileEdit) : M unit :=
  if is_creation file_edit then
    present ← path_exists (file_path file_edit);
    if present : bool then
      throw (MentatError
               ("Model attempted to create file " ++ file_path file_edit
                      ++ " which already exists"))
    else _add_file (file_path file_edit)
  else
    present ← path_exists (file_path file_edit);
    if negb present then
      throw (MentatError
               ("Attempted to edit non-existent file "
                      ++ file_path file_edit))
    else
      w ← get_world;
      if bool_decide (file_path file_edit ∉ files w) then
        throw (MentatError
                 ("Attempted to edit file " ++ file_path file_edit
                        ++ " not in context"))
      else mret tt.

(** Lines 90-99: the deletion prompt.  The result is [true] when the loop
    body ends here with [continue]. *)
Definition confirm_deletion (file_edit : FileEdit) (rel_path : Path)
  : M bool :=
  if is_deletion file_edit then
    stream_send ("Are you sure you want to delete " ++ rel_path ++ "?")
                (Some "red") ;;
    yes ← ask_yes_no false;
    if yes : bool then
      stream_send ("Deleting " ++ rel_path ++ "...") (Some "red") ;;
      _delete_file (file_path file_edit) ;;
      mret true
    else
      stream_send ("Not deleting " ++ rel_path) (Some "green") ;;
      mret false
  else mret false.

(** Lines 101-115: the snapshot lookup and the conflict prompt; the result
    is [stored_lines]. *)
Definition conflict_check (file_edit : FileEdit) (rel_path : Path)
  : M (list string) :=
  if negb (is_creation file_edit) then
    w ← get_world;
    stored_lines ← lift (getitem (file_lines w) rel_path);
    current ← read_file rel_path;
    (if bool_decide (stored_lines ≠ current) then
       stream_send ("File '" ++ rel_path ++ "' changed while generating; current"
                    ++ " file changes will be erased. Continue?")
                   (Some "light_yellow") ;;
       yes ← ask_yes_no false;
       if negb yes then
         stream_send ("Not applying changes to file " ++ rel_path) None
       else mret tt
     else mret tt) ;;
    mret stored_lines
  else mret [].

(** Lines 117-125: the rename; the result is the edit with its
    [file_path] reassigned. *)
Definition rename_step (file_edit : FileEdit) : M FileEdit :=
  match rename_file_path file_edit with
  | Some target =>
      present ← path_exists target;
      if present : bool then
        throw (MentatError
                 ("Attempted to rename file " ++ file_path file_edit
                        ++ " to existing" ++ " file " ++ target))
      else
        _add_file target ;;
        _delete_file (file_path file_edit) ;;
        mret (set_file_path file_edit target)
  | None => mret file_edit
  end.

(** Lines 127-129: the whole-file overwrite. *)
Definition write_step (file_edit : FileEdit) (stored_lines : list string)
  : M unit :=
  new_lines ← lift (get_updated_file_lines file_edit stored_lines);
  write_text (file_path file_edit) (join_lines new_lines).

(** Lines 72-115: everything the loop body does before the rename.  [None]
    is the [continue] after an accepted deletion, [Some stored_lines] the
    fall-through. *)
Definition before_rename (file_edit : FileEdit) : M (option (list string)) :=
  let rel_path := file_path file_edit in
  check_target file_edit ;;
  deleted ← confirm_deletion file_edit rel_path;
  if deleted : bool then mret None
  else
    stored_lines ← conflict_check file_edit rel_path;
    mret (Some stored_lines).

(** The body of the [for] loop of [write_changes_to_files]. *)
Definition loop_body (file_edit : FileEdit) : M unit :=
  reached ← before_rename file_edit;
  match reached with
  | None => mret tt
  | Some stored_lines =>
      file_edit ← rename_step file_edit;
      write_step file_edit stored_lines
  end.

(** [CodeFileManager.write_changes_to_files]. *)
Fixpoint write_changes_to_files (file_edits : list FileEdit) : M unit :=
  match file_edits with
  | [] => mret tt
  | file_edit :: rest =>
      loop_body file_edit ;;
      write_changes_to_files rest
  end.
End Engine.

(** Modelled from the spec: [FileEdit.get_updated_file_lines] of
    file_edit.py.  "Replacements for a path are applied against the
    pre-edit snapshot in descending order of start", each one yielding
    [L[:start] + new_lines + L[end:]]; "overlapping replacement ranges for
    the same path are rejected before any write occurs". *)
Definition apply_replacement (lines : list string) (r : Replacement)
  : list string :=
  py_slice None (Some (r_start r)) lines ++ new_lines r
    ++ py_slice (r_end r) None lines.

Fixpoint insert_descending (r : Replacement) (sorted : list Replacement)
  : list Replacement :=
  match sorted with
  | [] => [r]
  | r' :: rest =>
      if r_start r' <? r_start r then r :: sorted
      else r' :: insert_descending r rest
  end.

Definition sort_descending (rs : list Replacement) : list Replacement :=
  foldr insert_descending [] rs.

(** Two ranges given in descending order of start overlap when the lower
    one ends above the start of the upper one; a missing end reaches the
    end of the file. *)
Fixpoint overlapping (sorted : list Replacement) : bool :=
  match sorted with
  | upper :: ((lower :: _) as rest) =>
      match r_end lower with
      | Some e => (r_start upper <? e) || overlapping rest
      | None => true
      end
  | _ => false
  end.

Definition get_updated_file_lines (file_edit : FileEdit)
  (file_lines : list string) : Err (list string) :=
  let sorted := sort_descending (replacements file_edit) in
  if overlapping sorted
  then raise (ValueError None)
  else mret (foldl apply_replacement file_lines sorted).

(** Assignment to [self.file_lines] and to one of its entries. *)
Definition set_file_lines
  (f : gmap Path (list string) → gmap Path (list string)) (w : World)
  : World :=
  mkWorld (disk w) (files w) (f (file_lines w)) (replies w) (asked w) (sent w).

(** The [for] loop of [read_all_file_lines] over the keys of
    [code_context.files]. *)
Fixpoint read_each (files : list Path) : M unit :=
  match files with
  | [] => mret tt
  | path :: rest =>
      lines ← read_file path;
      (fun w => (set_file_lines (insert path lines) w, inr tt)) ;;
      read_each rest
  end.

(** [CodeFileManager.read_all_file_lines].  [files] is
    [list(code_context.files.keys())]: the tracked paths in the order in
    which the dict yields them, which the key set of the world does not
    record. *)
Definition read_all_file_lines (files : list Path) : M unit :=
  (fun w => (set_file_lines (fun _ => ∅) w, inr tt)) ;;
  read_each files.

(** *** Vocabulary of the statements about the engine *)

(** The three ways in which the checks of lines 73-88 reject an edit. *)
Definition rejected (e : FileEdit) (w : World) : Prop :=
  (is_creation e = true ∧ is_Some (disk w !! file_path e)) ∨
  (is_creation e = false ∧ disk w !! file_path e = None) ∨
  (is_creation e = false ∧ file_path e ∉ files w).

(** The messages of the loop body. *)
Definition ask_delete (p : Path) : string * option string :=
  ("Are you sure you want to delete " ++ p ++ "?", Some "red").
Definition deleting (p : Path) : string * option string :=
  ("Deleting " ++ p ++ "...", Some "red").
Definition not_deleting (p : Path) : string * option string :=
  ("Not deleting " ++ p, Some "green").
Definition not_applying (p : Path) : string * option string :=
  ("Not applying changes to file " ++ p, None).
Definition conflict_warning (p : Path) : string * option string :=
  ("File '" ++ p ++ "' changed while generating; current"
   ++ " file changes will be erased. Continue?", Some "light_yellow").

(** The world after one prompt has been answered and [msgs] sent. *)
Definition answered (msgs : list (string * option string)) (w : World)
  : World :=
  mkWorld (disk w) (files w) (file_lines w) (replies w) (S (asked w))
          (sent w ++ msgs).

(** A text without carriage return: [open(path, "r")] reads such a text
    as it is stored. *)
Fixpoint no_CR (s : string) : bool :=
  match s with
  | EmptyString => true
  | String c rest => negb (Ascii.eqb c "013"%char) && no_CR rest
  end.

(** Every tracked path is a file on disk. *)
Definition tracked_on_disk (w : World) : Prop :=
  ∀ p, p ∈ files w → is_Some (disk w !! p).

(** What a run may change between two worlds when it asks at most [n]
    questions: the snapshot and the user's replies stay, questions are
    only added, messages are only appended, and tracked paths that were
    all on disk still are. *)
Definition evolves (n : nat) (w w' : World) : Prop :=
  file_lines w' = file_lines w ∧
  replies w' = replies w ∧
  (asked w ≤ asked w' ≤ asked w + n)%nat ∧
  sent w `prefix_of` sent w' ∧
  (tracked_on_disk w → tracked_on_disk w').

(** Every run of [m] evolves the world within [n] questions, whether it
    returns or raises. *)
Definition bounded {A : Type} (n : nat) (m : M A) : Prop :=
  ∀ w w' r, m w = (w', r) → evolves n w w'.

End CodeFileManager.

(** ** mentat/config_manager.py, continued: loading and the accessors *)

Module ConfigLoading.
Import ConfigManager CodeFileManager.

(** [config_file_name]; the project configuration is
    [git_root / config_file_name]. *)
Definition config_file_name : Path := ".mentat_config.json".

Definition user_warning : string * option string :=
  ("Warning: User .mentat_config.json contains invalid"
   ++ " json; ignoring user configuration file", Some "light_yellow").

Definition project_warning : string * option string :=
  ("Warning: Git project .mentat_config.json contains invalid"
   ++ " json; ignoring project configuration file", Some "light_yellow").

(** [config_file.read()] inside [with open(path)]. *)
Definition read_text (path : Path) : M string :=
  fun w =>
    match disk w !! path with
    | Some text => (w, inr text)
    | None => (w, inl FileNotFoundError)
    end.

Section Loading.
(** The values of a configuration, and [json.load] on the text of a file:
    [None] is a [JSONDecodeError], a decoded text is a JSON object. *)
Variable V : Type.
Variable json_load : string → option (gmap string V).
(** [user_config_path], which is [mentat_dir_path / config_file_name], and
    the text of the packaged resource [default_config.json]. *)
Variable user_config_path : Path.
Variable default_config_text : string.

(** [ConfigManager.__init__]. *)
Definition init : M (ConfigManager V) :=
  present ← path_exists user_config_path;
  user_config ←
    (if present : bool then
       text ← read_text user_config_path;
       match json_load text with
       | Some config => mret config
       | None =>
           stream_send (fst user_warning) (snd user_warning) ;;
           mret ∅
       end
     else mret ∅);
  let project_config_path := config_file_name in
  present ← path_exists project_config_path;
  project_config ←
    (if present : bool then
       text ← read_text project_config_path;
       match json_load text with
       | Some config => mret config
       | None =>
           stream_send (fst project_warning) (snd project_warning) ;;
           mret ∅
       end
     else mret ∅);
  match json_load default_config_text with
  | Some default_config =>
      mret {| user_config := user_config;
              project_config := project_config;
              default_config := default_config |}
  | None => throw (ValueError None)
  end.

(** What [init] keeps of the file at [path]: the dict decoded from it, or
    the empty dict when the file is missing or is not valid JSON; and
    whether the file is there without being valid JSON. *)
Definition loaded (w : World) (path : Path) : gmap string V :=
  match disk w !! path with
  | Some text => default ∅ (json_load text)
  | None => ∅
  end.

Definition invalid (w : World) (path : Path) : bool :=
  match disk w !! path with
  | Some text => match json_load text with Some _ => false | None => true end
  | None => false
  end.
End Loading.

(** The Python values a configuration file can hold, floating-point
    numbers left out. *)
#[local] Unset Elimination Schemes.
Inductive pyval : Type :=
  | PNone
  | PBool (b : bool)
  | PInt (z : Z)
  | PStr (s : string)
  | PList (items : list pyval)
  | PDict (items : list (string * pyval)).
#[local] Set Elimination Schemes.

(** The truth value of [v] in [if v:]. *)
Definition truthy (v : pyval) : bool :=
  match v with
  | PNone => false
  | PBool b => b
  | PInt z => negb (z =? 0)
  | PStr s => negb (String.eqb s "")
  | PList items => match items with [] => false | _ => true end
  | PDict items => match items with [] => false | _ => true end
  end.

Section Accessors.
(** [int] applied to a [str], as in the block decoder. *)
Variable int_of_str : string → option Z.

(** [int(v)]. *)
Definition int_of (v : pyval) : Err Z :=
  match v with
  | PInt z => mret z
  | PBool b => mret (if b then 1 else 0)
  | PStr s =>
      match int_of_str s with
      | Some z => mret z
      | None => raise (ValueError None)
      end
  | _ => raise TypeError
  end.

(** [ConfigManager.maximum_context]. *)
Definition maximum_context (self : ConfigManager pyval) : Err (option Z) :=
  maximum_context ← _get_key self "maximum-context";
  if truthy maximum_context then
    n ← int_of maximum_context;
    mret (Some n)
  else mret None.
End Accessors.

(** [ConfigManager.input_style], [model], [file_exclude_glob_list] and
    [parser]: [cast] does nothing at run time. *)
Definition input_style {V : Type} (self : ConfigManager V) : Err V :=
  _get_key self "input-style".

Definition model {V : Type} (self : ConfigManager V) : Err V :=
  _get_key self "model".

Definition file_exclude_glob_list {V : Type} (self : ConfigManager V)
  : Err V :=
  _get_key self "file-exclude-glob-list".

Definition parser {V : Type} (self : ConfigManager V) : Err V :=
  _get_key self "format".

End ConfigLoading.

(** ** Sample inputs *)

Module Examples.
Import BlockParser CodeFileManager.

(** One tracked file, [f.txt], holding the single line [a], as it was
    when the snapshot was taken; the user gives [reply] at every prompt. *)
Definition world (reply : option bool) : World :=
  mkWorld {[ "f.txt" := "a" ]} {[ "f.txt" ]} {[ "f.txt" := ["a"] ]}
          (fun _ => reply) 0 [].

(** The same, after [f.txt] was changed to [b] behind the engine's back. *)
Definition drifted (reply : option bool) : World :=
  mkWorld {[ "f.txt" := "b" ]} {[ "f.txt" ]} {[ "f.txt" := ["a"] ]}
          (fun _ => reply) 0 [].

Definition replace_first : FileEdit :=
  mkFileEdit "f.txt" [mkReplacement 0 (Some 1) ["X"]] false false None.

Definition delete_f : FileEdit := mkFileEdit "f.txt" [] false true None.

Definition delete_and_rename : FileEdit :=
  mkFileEdit "f.txt" [] false true (Some "g.txt").

Definition rename_and_replace : FileEdit :=
  mkFileEdit "f.txt" [mkReplacement 0 (Some 1) ["X"]] false false
             (Some "g.txt").

Definition create (path : Path) : FileEdit :=
  mkFileEdit path [] true false None.

(** A [json.loads] that yields the dict [json_data], and an [int] that
    accepts no string: the sample headers hold JSON integers. *)
Definition loads (json_data : gmap string json)
  : string → Err (gmap string json) :=
  fun _ => inr json_data.

Definition no_int_of_str : string → option Z := fun _ => None.

(** A special block that ends with the code marker, as [_special_block]
    receives it; its header lines are what [loads] decodes. *)
Definition block : string :=
  "@@start" ++ NL ++ "{...}" ++ NL ++ "@@code" ++ NL.

(** The dict that [json.loads] makes of an insert header for [f.txt]
    with the given line fields. *)
Definition insert_header (before after : option Z) : gmap string json :=
  let with_before (h : gmap string json) :=
    match before with
    | Some b => <["insert-before-line" := JInt b]> h
    | None => h
    end in
  let with_after (h : gmap string json) :=
    match after with
    | Some a => <["insert-after-line" := JInt a]> h
    | None => h
    end in
  with_after (with_before
    {[ "file" := JStr "f.txt"; "action" := JStr "insert" ]}).

Definition insert_fields (before after : option Z)
  : _BlockParserDeserializedJson :=
  mkDeserializedJson (Some "f.txt") (Some _BlockParserAction.Insert) None
                     before after None None.

Definition range_header (action : string) (start_line end_line : Z)
  : gmap string json :=
  {[ "file" := JStr "f.txt"; "action" := JStr action;
     "start-line" := JInt start_line; "end-line" := JInt end_line ]}.

Definition range_fields (act : _BlockParserAction.t) (start_line end_line : Z)
  : _BlockParserDeserializedJson :=
  mkDeserializedJson (Some "f.txt") (Some act) None None None
                     (Some start_line) (Some end_line).

Definition four_lines : list string := ["aaa"; "bbb"; "ccc"; "ddd"].

Definition snapshot : gmap Path (list string) := {[ "f.txt" := four_lines ]}.



(** A create-file header for [new.txt], and a replace header for [f.txt]
    that has an [end-line] but no [start-line]. *)
Definition create_header : gmap string json :=
  {[ "file" := JStr "new.txt"; "action" := JStr "create-file" ]}.

Definition create_fields : _BlockParserDeserializedJson :=
  mkDeserializedJson (Some "new.txt") (Some _BlockParserAction.CreateFile)
                     None None None None None.

Definition open_range_header : gmap string json :=
  {[ "file" := JStr "f.txt"; "action" := JStr "replace";
     "end-line" := JInt 3 ]}.

Definition open_range_fields : _BlockParserDeserializedJson :=
  mkDeserializedJson (Some "f.txt") (Some _BlockParserAction.Replace)
                     None None None None (Some 3).

(** A creation of [g.txt] that also asks to rename it to the existing
    [f.txt], and a further replacement in [g.txt]. *)
Definition create_and_rename : FileEdit :=
  mkFileEdit "g.txt" [] true false (Some "f.txt").


(** A [json.load] for configurations that accepts the text [{}] only, as
    the empty object; a project configuration file holding [oops]. *)
Definition load_empty_object : string → option (gmap string Z) :=
  fun text => if String.eqb text "{}" then Some ∅ else None.

Definition bad_project_config : CodeFileManager.World :=
  mkWorld {[ ".mentat_config.json" := "oops" ]} ∅ ∅ (fun _ => None) 0 [].

End Examples.

(** * Properties *)

Import ConfigManager BlockParser CodeFileManager.

(** ** Text and slices *)

Lemma split_lines_nonempty (s : string) : split_lines s ≠ [].
Proof.
  destruct s as [|c s]; simpl; [discriminate|].
  destruct (Ascii.eqb c LF); [discriminate|].
  destruct (split_lines s); discriminate.
Qed.

(** Splitting a text at its line feeds and joining the pieces with line
    feeds gives the text back, so rewriting a file with the lines just read
    from it leaves its content as it was. *)
Lemma join_split_lines (s : string) : join_lines (split_lines s) = s.
Proof.
  induction s as [|c s IH]; [reflexivity|].
  simpl. destruct (Ascii.eqb_spec c LF) as [->|Hne].
  - pose proof (split_lines_nonempty s) as Hs.
    destruct (split_lines s) as [|w ws] eqn:E; [done|].
    change (join_lines (EmptyString :: w :: ws))
      with (String LF (join_lines (w :: ws))).
    by rewrite IH.
  - pose proof (split_lines_nonempty s) as Hs.
    destruct (split_lines s) as [|w ws] eqn:E; [done|].
    destruct ws as [|w' ws]; simpl in *; by rewrite <- IH.
Qed.

(** ** ConfigManager *)

Section ConfigFacts.
Context {V : Type}.
Implicit Types (self : ConfigManager V) (key : string) (v : V).

Lemma py_in_true (d : gmap string V) key v :
  d !! key = Some v → py_in key d = true.
Proof. intros H. apply bool_decide_eq_true_2. eauto. Qed.

Lemma py_in_false (d : gmap string V) key :
  d !! key = None → py_in key d = false.
Proof.
  intros H. apply bool_decide_eq_false_2. rewrite H. by intros [? ?].
Qed.

(** C10. [_get_key] consults the project configuration first, then the
    user configuration, then the built-in default configuration; the first
    of the three that contains the key supplies the value, and a key that
    is in none of them raises [ValueError]. *)
Theorem get_key_priority self key :
  match project_config self !! key with
  | Some v => _get_key self key = inr v
  | None =>
      match user_config self !! key with
      | Some v => _get_key self key = inr v
      | None =>
          match default_config self !! key with
          | Some v => _get_key self key = inr v
          | None =>
              _get_key self key =
                inl (ValueError
                       (Some ("No value for config key " ++ key ++ " found")))
          end
      end
  end.
Proof.
  unfold _get_key, getitem.
  destruct (project_config self !! key) as [v|] eqn:Hp.
  { by rewrite (py_in_true _ _ _ Hp). }
  rewrite (py_in_false _ _ Hp).
  destruct (user_config self !! key) as [v|] eqn:Hu.
  { by rewrite (py_in_true _ _ _ Hu). }
  rewrite (py_in_false _ _ Hu).
  destruct (default_config self !! key) as [v|] eqn:Hd.
  { by rewrite (py_in_true _ _ _ Hd). }
  by rewrite (py_in_false _ _ Hd).
Qed.
End ConfigFacts.

(** ** The file mutation engine *)

Lemma bind_unfold {A B : Type} (m : M A) (k : A → M B) (w : World) :
  (m ≫= k) w =
  match m w with
  | (w', inl e) => (w', inl e)
  | (w', inr a) => k a w'
  end.
Proof. reflexivity. Qed.

Lemma bind_ok {A B : Type} (m : M A) (k : A → M B) (w w' : World) (a : A) :
  m w = (w', inr a) → (m ≫= k) w = k a w'.
Proof. intros H. by rewrite bind_unfold, H. Qed.

Lemma bind_raise {A B : Type} (m : M A) (k : A → M B) (w w' : World) e :
  m w = (w', inl e) → (m ≫= k) w = (w', inl e).
Proof. intros H. by rewrite bind_unfold, H. Qed.

Lemma is_Some_true {A : Type} (o : option A) :
  is_Some o → bool_decide (is_Some o) = true.
Proof. apply bool_decide_eq_true_2. Qed.

Lemma is_Some_false {A : Type} (o : option A) :
  o = None → bool_decide (is_Some o) = false.
Proof. intros ->. apply bool_decide_eq_false_2. by intros [? ?]. Qed.

Ltac run_m :=
  unfold mbind, M_bind, mret, M_ret, throw, lift, get_world, path_exists,
    write_text, unlink, stream_send, ask_yes_no, read_file; simpl.

Section EngineFacts.
Variable upd : FileEdit → list string → Err (list string).
Implicit Types (e : FileEdit) (w : World) (p : Path).

Lemma add_file_run p w :
  _add_file p w =
  (set_disk (insert p "") (set_files (fun fs => fs ∪ {[p]}) w), inr tt).
Proof. reflexivity. Qed.

Lemma delete_file_run p w :
  is_Some (disk w !! p) →
  _delete_file p w =
  (set_disk (delete p) (set_files (fun fs => fs ∖ {[p]}) w), inr tt).
Proof.
  intros H. unfold _delete_file. run_m. by rewrite (is_Some_true _ H).
Qed.

Lemma check_target_existing e w :
  is_creation e = false →
  is_Some (disk w !! file_path e) →
  file_path e ∈ files w →
  check_target e w = (w, inr tt).
Proof.
  intros Hc Hd Hf. unfold check_target. rewrite Hc. run_m.
  rewrite (is_Some_true _ Hd). simpl.
  rewrite bool_decide_eq_false_2; [done|]. by intros ?.
Qed.

Lemma check_target_creation e w :
  is_creation e = true →
  disk w !! file_path e = None →
  check_target e w =
  (set_disk (insert (file_path e) "")
            (set_files (fun fs => fs ∪ {[file_path e]}) w), inr tt).
Proof.
  intros Hc Hd. unfold check_target. rewrite Hc. run_m.
  by rewrite (is_Some_false _ Hd).
Qed.

Lemma check_target_rejected e w :
  rejected e w → ∃ msg, check_target e w = (w, inl (MentatError msg)).
Proof.
  intros [[Hc Hd]|[[Hc Hd]|[Hc Hf]]]; unfold check_target; rewrite Hc; run_m.
  - rewrite (is_Some_true _ Hd). eauto.
  - rewrite (is_Some_false _ Hd). simpl. eauto.
  - destruct (bool_decide (is_Some (disk w !! file_path e))); simpl; [|eauto].
    rewrite bool_decide_eq_true_2 by done. eauto.
Qed.

Lemma check_target_preserves e w w1 r :
  check_target e w = (w1, r) →
  file_lines w1 = file_lines w ∧ replies w1 = replies w ∧
  asked w1 = asked w ∧ sent w1 = sent w.
Proof.
  unfold check_target. run_m.
  destruct (is_creation e), (bool_decide (is_Some (disk w !! file_path e)));
    simpl; try (intros [= <- _]; done).
  destruct (bool_decide (file_path e ∉ files w)); intros [= <- _]; done.
Qed.

Lemma loop_body_rejected e w :
  rejected e w → ∃ msg, loop_body upd e w = (w, inl (MentatError msg)).
Proof.
  intros H. destruct (check_target_rejected _ _ H) as [msg Hm].
  exists msg. unfold loop_body, before_rename.
  apply bind_raise. apply bind_raise. exact Hm.
Qed.

Lemma write_changes_app (pre post : list FileEdit) w :
  write_changes_to_files upd (pre ++ post) w =
  match write_changes_to_files upd pre w with
  | (w1, inl err) => (w1, inl err)
  | (w1, inr _) => write_changes_to_files upd post w1
  end.
Proof.
  revert w. induction pre as [|e pre IH]; intros w; [reflexivity|].
  simpl. rewrite !bind_unfold.
  destruct (loop_body upd e w) as [w1 [err|[]]]; [reflexivity|].
  apply IH.
Qed.

(** C6. An edit that the checks reject (a creation whose target exists, or
    a non-creation edit whose target is missing from the disk or from the
    tracked set) raises [MentatError] out of the batch: the world is left
    exactly as the edits before it made it, and no later edit runs. *)
Theorem rejected_edit_is_batch_fatal (pre post : list FileEdit) e w w1 :
  write_changes_to_files upd pre w = (w1, inr tt) →
  rejected e w1 →
  ∃ msg, write_changes_to_files upd (pre ++ e :: post) w
         = (w1, inl (MentatError msg)).
Proof.
  intros Hpre Hrej. destruct (loop_body_rejected _ _ Hrej) as [msg Hm].
  exists msg. rewrite write_changes_app, Hpre. simpl.
  by apply bind_raise.
Qed.

Lemma check_target_ok_exists e w w1 :
  check_target e w = (w1, inr tt) → is_Some (disk w1 !! file_path e).
Proof.
  unfold check_target. run_m.
  destruct (is_creation e),
    (bool_decide (is_Some (disk w !! file_path e))) eqn:Hd; simpl;
    try discriminate.
  - intros [= <-]. simpl. rewrite lookup_insert_eq. eauto.
  - destruct (bool_decide (file_path e ∉ files w)); [discriminate|].
    intros [= <-]. by apply bool_decide_eq_true_1 in Hd.
Qed.

Lemma confirm_deletion_skip e p w :
  is_deletion e = false → confirm_deletion e p w = (w, inr false).
Proof. intros H. unfold confirm_deletion. by rewrite H. Qed.

Lemma confirm_deletion_declined e p w :
  is_deletion e = true →
  replies w (asked w) ≠ Some true →
  confirm_deletion e p w =
  (answered [ask_delete p; not_deleting p] w,
   inr false).
Proof.
  intros Hd Hr. unfold confirm_deletion. rewrite Hd. run_m.
  assert (default false (replies w (asked w)) = false) as ->.
  { destruct (replies w (asked w)) as [[]|]; simpl; congruence. }
  simpl. unfold answered. by rewrite <- app_assoc.
Qed.

Lemma confirm_deletion_accepted e w :
  is_deletion e = true →
  replies w (asked w) = Some true →
  is_Some (disk w !! file_path e) →
  confirm_deletion e (file_path e) w =
  (set_disk (delete (file_path e))
     (set_files (fun fs => fs ∖ {[file_path e]})
        (answered [ask_delete (file_path e);
                   deleting (file_path e)] w)),
   inr true).
Proof.
  intros Hd Hr He. unfold confirm_deletion. rewrite Hd. run_m.
  rewrite Hr. simpl. unfold _delete_file. run_m.
  rewrite (is_Some_true _ He). unfold set_disk, set_files, answered. simpl.
  by rewrite <- app_assoc.
Qed.

Lemma conflict_check_creation e p w :
  is_creation e = true → conflict_check e p w = (w, inr []).
Proof. intros H. unfold conflict_check. by rewrite H. Qed.

Lemma conflict_check_unchanged e p w stored text :
  is_creation e = false →
  file_lines w !! p = Some stored →
  disk w !! p = Some text →
  stored = split_lines text →
  conflict_check e p w = (w, inr stored).
Proof.
  intros Hc Hs Hd ->. unfold conflict_check. rewrite Hc. run_m.
  unfold getitem. rewrite Hs, Hd. simpl.
  by rewrite bool_decide_eq_false_2 by (by intros ?).
Qed.

Lemma conflict_check_declined e p w stored text :
  is_creation e = false →
  file_lines w !! p = Some stored →
  disk w !! p = Some text →
  stored ≠ split_lines text →
  replies w (asked w) ≠ Some true →
  conflict_check e p w =
  (answered [conflict_warning p;
             not_applying p] w,
   inr stored).
Proof.
  intros Hc Hs Hd Hne Hr. unfold conflict_check. rewrite Hc. run_m.
  unfold getitem. rewrite Hs, Hd. simpl.
  rewrite bool_decide_eq_true_2 by done. simpl.
  assert (default false (replies w (asked w)) = false) as ->.
  { destruct (replies w (asked w)) as [[]|]; simpl; congruence. }
  simpl. unfold answered. by rewrite <- app_assoc.
Qed.

Lemma conflict_check_accepted e p w stored text :
  is_creation e = false →
  file_lines w !! p = Some stored →
  disk w !! p = Some text →
  stored ≠ split_lines text →
  replies w (asked w) = Some true →
  conflict_check e p w = (answered [conflict_warning p] w, inr stored).
Proof.
  intros Hc Hs Hd Hne Hr. unfold conflict_check. rewrite Hc. run_m.
  unfold getitem. rewrite Hs, Hd. simpl.
  rewrite bool_decide_eq_true_2 by done. simpl. by rewrite Hr.
Qed.

Lemma write_step_run e w stored new_lines :
  upd e stored = inr new_lines →
  write_step upd e stored w =
  (set_disk (insert (file_path e) (join_lines new_lines)) w, inr tt).
Proof. intros H. unfold write_step. run_m. by rewrite H. Qed.

Lemma rename_step_none e w :
  rename_file_path e = None → rename_step e w = (w, inr e).
Proof. intros H. unfold rename_step. by rewrite H. Qed.

Lemma rename_step_exists e w target :
  rename_file_path e = Some target →
  is_Some (disk w !! target) →
  ∃ msg, rename_step e w = (w, inl (MentatError msg)).
Proof.
  intros Hr Ht. unfold rename_step. rewrite Hr. run_m.
  rewrite (is_Some_true _ Ht). eauto.
Qed.

Lemma rename_step_run e w target :
  rename_file_path e = Some target →
  disk w !! target = None →
  is_Some (disk w !! file_path e) →
  ∃ wa wr,
    _add_file target w = (wa, inr tt) ∧
    _delete_file (file_path e) wa = (wr, inr tt) ∧
    rename_step e w = (wr, inr (set_file_path e target)) ∧
    disk wr = delete (file_path e) (<[target := ""]> (disk w)) ∧
    files wr = (files w ∪ {[target]}) ∖ {[file_path e]} ∧
    file_lines wr = file_lines w ∧ replies wr = replies w ∧
    asked wr = asked w ∧ sent wr = sent w.
Proof.
  intros Hr Ht Hs.
  assert (target ≠ file_path e) as Hne.
  { intros ->. rewrite Ht in Hs. by destruct Hs. }
  eexists _, _. split; [apply add_file_run|].
  assert (is_Some (disk (set_disk (insert target "")
            (set_files (fun fs => fs ∪ {[target]}) w)) !! file_path e)) as Hs'.
  { simpl. by rewrite lookup_insert_ne. }
  split; [by apply delete_file_run|].
  split; [|done].
  unfold rename_step, _add_file, _delete_file. rewrite Hr. run_m.
  rewrite (is_Some_false _ Ht). simpl in Hs' |- *.
  by rewrite (is_Some_true _ Hs').
Qed.

Lemma confirm_deletion_false_preserves e p w w' :
  confirm_deletion e p w = (w', inr false) →
  disk w' = disk w ∧ files w' = files w.
Proof.
  unfold confirm_deletion. destruct (is_deletion e); [|by intros [= <-]].
  run_m. destruct (default false (replies w (asked w))); simpl.
  - unfold _delete_file. run_m.
    by destruct (bool_decide (is_Some (disk w !! file_path e))).
  - by intros [= <-].
Qed.

Lemma conflict_check_preserves e p w w' r :
  conflict_check e p w = (w', r) →
  disk w' = disk w ∧ files w' = files w.
Proof.
  unfold conflict_check. destruct (is_creation e); simpl; [by intros [= <- _]|].
  run_m. destruct (getitem (file_lines w) p) as [err|stored];
    [by intros [= <- _]|].
  destruct (disk w !! p) as [text|]; [|by intros [= <- _]].
  destruct (bool_decide (stored ≠ split_lines text)); simpl;
    [|by intros [= <- _]].
  destruct (default false (replies w (asked w))); simpl; by intros [= <- _].
Qed.

Lemma before_rename_source_exists e w w1 stored :
  before_rename e w = (w1, inr (Some stored)) →
  is_Some (disk w1 !! file_path e).
Proof.
  unfold before_rename. rewrite bind_unfold.
  destruct (check_target e w) as [wc [err|[]]] eqn:Hc; [discriminate|].
  rewrite bind_unfold.
  destruct (confirm_deletion e (file_path e) wc) as [wd [err|[|]]] eqn:Hd;
    try discriminate.
  rewrite bind_unfold.
  destruct (conflict_check e (file_path e) wd) as [wk [err|st]] eqn:Hk;
    [discriminate|].
  intros [= <- _].
  apply check_target_ok_exists in Hc.
  apply confirm_deletion_false_preserves in Hd as [Hd _].
  apply conflict_check_preserves in Hk as [Hk _].
  by rewrite Hk, Hd.
Qed.

Lemma before_rename_run e w wc wd (deleted : bool) :
  check_target e w = (wc, inr tt) →
  confirm_deletion e (file_path e) wc = (wd, inr deleted) →
  before_rename e w =
  if deleted then (wd, inr None)
  else match conflict_check e (file_path e) wd with
       | (wk, inl err) => (wk, inl err)
       | (wk, inr stored) => (wk, inr (Some stored))
       end.
Proof.
  intros Hc Hd. unfold before_rename.
  rewrite (bind_ok _ _ _ _ _ Hc), (bind_ok _ _ _ _ _ Hd).
  destruct deleted; [reflexivity|]. rewrite bind_unfold.
  by destruct (conflict_check e (file_path e) wd) as [wk [err|st]].
Qed.

Lemma loop_body_continue e w w1 :
  before_rename e w = (w1, inr None) → loop_body upd e w = (w1, inr tt).
Proof. intros H. unfold loop_body. by rewrite (bind_ok _ _ _ _ _ H). Qed.

Lemma loop_body_after e w w1 stored :
  before_rename e w = (w1, inr (Some stored)) →
  loop_body upd e w =
  (rename_step e ≫= (fun e' => write_step upd e' stored)) w1.
Proof. intros H. unfold loop_body. by rewrite (bind_ok _ _ _ _ _ H). Qed.

Lemma batch_step e rest w w' :
  loop_body upd e w = (w', inr tt) →
  write_changes_to_files upd (e :: rest) w
  = write_changes_to_files upd rest w'.
Proof. intros H. simpl. by rewrite (bind_ok _ _ _ _ _ H). Qed.

(** C7. Once the loop body reaches the rename of an edit that carries a
    rename target: if the destination exists the batch stops with
    [MentatError]; otherwise the destination is created ([_add_file]),
    then the source is deleted ([_delete_file]), so that the tracked set
    gains the destination and loses the source, and the content is then
    written at the destination, which has become the edit's path. *)
Theorem rename_creates_then_deletes e w w1 stored target rest :
  rename_file_path e = Some target →
  before_rename e w = (w1, inr (Some stored)) →
  (is_Some (disk w1 !! target) →
     ∃ msg, write_changes_to_files upd (e :: rest) w
            = (w1, inl (MentatError msg))) ∧
  (disk w1 !! target = None →
     ∃ wa wr,
       _add_file target w1 = (wa, inr tt) ∧
       _delete_file (file_path e) wa = (wr, inr tt) ∧
       rename_step e w1 = (wr, inr (set_file_path e target)) ∧
       file_path (set_file_path e target) = target ∧
       files wr = (files w1 ∪ {[target]}) ∖ {[file_path e]} ∧
       target ∈ files wr ∧ (file_path e ∉ files wr) ∧
       disk wr !! target = Some "" ∧ disk wr !! file_path e = None ∧
       ∀ new_lines,
         upd (set_file_path e target) stored = inr new_lines →
         ∃ w', write_changes_to_files upd (e :: rest) w
               = write_changes_to_files upd rest w' ∧
               disk w' = <[target := join_lines new_lines]> (disk wr) ∧
               files w' = files wr).
Proof.
  intros Hr Hb. pose proof (before_rename_source_exists _ _ _ _ Hb) as Hs.
  pose proof (loop_body_after _ _ _ _ Hb) as Hl. split.
  - intros Ht. destruct (rename_step_exists _ _ _ Hr Ht) as [msg Hm].
    exists msg. simpl. apply bind_raise. rewrite Hl. by apply bind_raise.
  - intros Ht.
    destruct (rename_step_run _ _ _ Hr Ht Hs)
      as (wa & wr & Ha & Hd & Hrun & Hdisk & Hfiles & _).
    assert (target ≠ file_path e) as Hne.
    { intros ->. rewrite Ht in Hs. by destruct Hs. }
    exists wa, wr.
    split; [exact Ha|]. split; [exact Hd|]. split; [exact Hrun|].
    split; [reflexivity|]. split; [exact Hfiles|].
    split.
    { rewrite Hfiles. apply elem_of_difference. split.
      - apply elem_of_union. right. by apply elem_of_singleton.
      - by intros ?%elem_of_singleton. }
    split.
    { rewrite Hfiles. intros [_ Hn]%elem_of_difference.
      apply Hn. by apply elem_of_singleton. }
    split; [by rewrite Hdisk, lookup_delete_ne, lookup_insert_eq|].
    split; [rewrite Hdisk; apply lookup_delete_eq|].
    intros new_lines Hu. eexists. split.
    { apply batch_step. rewrite Hl, (bind_ok _ _ _ _ _ Hrun).
      by rewrite (write_step_run _ _ _ _ Hu). }
    split; reflexivity.
Qed.

(** C8. When the checks have passed for an edit with [is_deletion] and the
    user answers yes to the deletion prompt, the path is removed from the
    disk and from the tracked set and the batch goes on with the next
    edit; nothing is written at the path.  The prompt is asked with
    [default_yes=False]: on an empty reply nothing is deleted. *)
Theorem accepted_deletion_removes_file e w w1 rest :
  is_deletion e = true →
  check_target e w = (w1, inr tt) →
  (replies w (asked w) = Some true →
     ∃ w', write_changes_to_files upd (e :: rest) w
           = write_changes_to_files upd rest w' ∧
           disk w' = delete (file_path e) (disk w1) ∧
           disk w' !! file_path e = None ∧
           files w' = files w1 ∖ {[file_path e]} ∧
           sent w' = (sent w ++
             [ask_delete (file_path e);
              deleting (file_path e)])%list) ∧
  (replies w (asked w) = None →
     ∃ w2, confirm_deletion e (file_path e) w1 = (w2, inr false) ∧
           disk w2 = disk w1 ∧ files w2 = files w1).
Proof.
  intros Hd Hc.
  destruct (check_target_preserves _ _ _ _ Hc) as (_ & Hrep & Hask & Hsent).
  pose proof (check_target_ok_exists _ _ _ Hc) as Hex. split.
  - intros Hr. rewrite <- Hrep, <- Hask in Hr.
    pose proof (confirm_deletion_accepted _ _ Hd Hr Hex) as Hcd.
    eexists. split.
    + apply batch_step, loop_body_continue.
      by rewrite (before_rename_run _ _ _ _ _ Hc Hcd).
    + simpl. rewrite Hsent.
      split; [done|]. split; [apply lookup_delete_eq|done].
  - intros Hr. rewrite <- Hrep, <- Hask in Hr. eexists. split.
    + apply confirm_deletion_declined; [done|]. by rewrite Hr.
    + done.
Qed.

(** C1. What the engine does when the user declines the conflict prompt:
    it sends "Not applying changes to file ..." and then overwrites the
    file all the same with the lines computed from the snapshot. *)
Theorem declined_conflict_still_overwrites e w rest stored text new_lines :
  is_creation e = false →
  is_deletion e = false →
  rename_file_path e = None →
  file_path e ∈ files w →
  disk w !! file_path e = Some text →
  file_lines w !! file_path e = Some stored →
  stored ≠ split_lines text →
  replies w (asked w) ≠ Some true →
  upd e stored = inr new_lines →
  ∃ w', write_changes_to_files upd (e :: rest) w
        = write_changes_to_files upd rest w' ∧
        disk w' = <[file_path e := join_lines new_lines]> (disk w) ∧
        sent w' = (sent w ++
          [conflict_warning (file_path e);
           not_applying (file_path e)])%list.
Proof.
  intros Hc Hd Hr Hf Hdisk Hsnap Hne Hrep Hu.
  eexists. split.
  { apply batch_step.
    assert (before_rename e w =
            (answered [conflict_warning (file_path e);
                       not_applying (file_path e)] w, inr (Some stored)))
      as Hb.
    { rewrite (before_rename_run _ _ _ _ _
                 (check_target_existing _ _ Hc ltac:(eauto) Hf)
                 (confirm_deletion_skip _ _ _ Hd)).
      by rewrite (conflict_check_declined _ _ _ _ _ Hc Hsnap Hdisk Hne Hrep). }
    rewrite (loop_body_after _ _ _ _ Hb).
    rewrite (bind_ok _ _ _ _ _ (rename_step_none _ _ Hr)).
    by rewrite (write_step_run _ _ _ _ Hu). }
  split; reflexivity.
Qed.

(** C2 (amended). When the user answers no to the deletion prompt of an
    edit on a tracked file whose content equals the snapshot, the file is
    not deleted and the edit is carried on.  Without a rename target the
    file is rewritten with the lines computed from the snapshot, so that
    it keeps its content when these are the snapshot itself; with a rename
    target whose destination is free the rename is performed.  In both
    cases the batch goes on with the next edit. *)
Theorem declined_deletion_falls_through e w rest stored text :
  is_deletion e = true →
  is_creation e = false →
  file_path e ∈ files w →
  disk w !! file_path e = Some text →
  file_lines w !! file_path e = Some stored →
  stored = split_lines text →
  replies w (asked w) ≠ Some true →
  let w1 := answered [ask_delete (file_path e);
                      not_deleting (file_path e)] w in
  before_rename e w = (w1, inr (Some stored)) ∧
  match rename_file_path e with
  | None =>
      ∀ new_lines, upd e stored = inr new_lines →
        ∃ w', write_changes_to_files upd (e :: rest) w
              = write_changes_to_files upd rest w' ∧
              disk w' = <[file_path e := join_lines new_lines]> (disk w) ∧
              files w' = files w ∧
              (new_lines = stored → disk w' = disk w)
  | Some target =>
      disk w !! target = None →
      ∀ new_lines, upd (set_file_path e target) stored = inr new_lines →
        ∃ w', write_changes_to_files upd (e :: rest) w
              = write_changes_to_files upd rest w' ∧
              disk w' = <[target := join_lines new_lines]>
                          (delete (file_path e) (disk w)) ∧
              files w' = (files w ∪ {[target]}) ∖ {[file_path e]}
  end.
Proof.
  intros Hd Hc Hf Hdisk Hsnap Heq Hrep w1.
  assert (before_rename e w = (w1, inr (Some stored))) as Hb.
  { rewrite (before_rename_run _ _ _ _ _
               (check_target_existing _ _ Hc ltac:(eauto) Hf)
               (confirm_deletion_declined _ _ _ Hd Hrep)).
    fold w1.
    by rewrite (conflict_check_unchanged _ _ w1 _ _ Hc Hsnap Hdisk Heq). }
  split; [exact Hb|].
  pose proof (loop_body_after _ _ _ _ Hb) as Hl.
  destruct (rename_file_path e) as [target|] eqn:Hr.
  - intros Ht new_lines Hu.
    assert (target ≠ file_path e) as Hne.
    { intros ->. by rewrite Ht in Hdisk. }
    destruct (rename_step_run _ w1 _ Hr Ht ltac:(simpl; eauto))
      as (wa & wr & _ & _ & Hrun & Hdr & Hfr & _).
    eexists. split; [|split].
    + apply batch_step. rewrite Hl, (bind_ok _ _ _ _ _ Hrun).
      by rewrite (write_step_run _ _ _ _ Hu).
    + simpl. rewrite Hdr. simpl.
      rewrite delete_insert_ne by congruence. by rewrite insert_insert_eq.
    + simpl. by rewrite Hfr.
  - intros new_lines Hu. eexists. split; [|split; [|split]].
    + apply batch_step. rewrite Hl, (bind_ok _ _ _ _ _ (rename_step_none _ _ Hr)).
      by rewrite (write_step_run _ _ _ _ Hu).
    + reflexivity.
    + reflexivity.
    + intros ->. simpl. rewrite Heq, join_split_lines. by apply insert_id.
Qed.
End EngineFacts.

(** ** The block dialect *)

Section DecoderFacts.
Variable json_loads : string → Err (gmap string json).
Variable int_of_str : string → option Z.
Implicit Types (d : _BlockParserDeserializedJson) (fl : gmap Path (list string))
  (rm : gmap Path Path) (sb : string).

Ltac run_err := unfold mbind, err_bind, mret, err_ret, raise; simpl.

Lemma special_block_resolved fl rm sb jd d act s e fa :
  json_loads (header_text sb) = inr jd →
  deserialize int_of_str jd = inr d →
  action d = Some act →
  resolve_action d act = inr (s, e, fa) →
  _special_block json_loads int_of_str fl rm sb =
  match file d with
  | None => inl TypeError
  | Some p =>
      if bool_decide (fa = FileActionType.CreateFile)
      then inr (decoded sb d act s e fa p [])
      else match fl !! default p (rm !! p) with
           | Some lines => inr (decoded sb d act s e fa p lines)
           | None => inl KeyError
           end
  end.
Proof.
  intros Hl Hd Ha Hr. unfold _special_block. fold (header_text sb).
  rewrite Hl. run_err. rewrite Hd, Ha, Hr. unfold decoded, ends_with_code.
  destruct (file d) as [p|]; simpl.
  - destruct (bool_decide (fa = FileActionType.CreateFile)); [reflexivity|].
    unfold getitem. by destruct (fl !! default p (rm !! p)).
  - by destruct (bool_decide (fa = FileActionType.CreateFile)).
Qed.

Lemma special_block_unresolved fl rm sb jd d act err :
  json_loads (header_text sb) = inr jd →
  deserialize int_of_str jd = inr d →
  action d = Some act →
  resolve_action d act = inl err →
  _special_block json_loads int_of_str fl rm sb = inl err.
Proof.
  intros Hl Hd Ha Hr. unfold _special_block. fold (header_text sb).
  rewrite Hl. run_err. by rewrite Hd, Ha, Hr.
Qed.

(** Once the range is resolved, decoding returns an edit exactly when the
    header names a file whose snapshot is found, and the edit it returns
    carries the resolved range. *)
Lemma special_block_range fl rm sb jd d act s e fa :
  json_loads (header_text sb) = inr jd →
  deserialize int_of_str jd = inr d →
  action d = Some act →
  resolve_action d act = inr (s, e, fa) →
  let result := _special_block json_loads int_of_str fl rm sb in
  (∀ di fe hc, result = inr (di, fe, hc) →
     first_changed_line di = s ∧ last_changed_line di = e ∧
     replacements fe =
       (if bool_decide (act = _BlockParserAction.Delete)
        then [mkReplacement s e []] else [])) ∧
  (∀ p lines, file d = Some p → fl !! default p (rm !! p) = Some lines →
     ∃ di fe hc, result = inr (di, fe, hc)).
Proof.
  intros Hl Hd Ha Hr result. unfold result.
  rewrite (special_block_resolved fl rm _ _ _ _ _ _ _ Hl Hd Ha Hr). split.
  - intros di fe hc. destruct (file d) as [p|]; [|discriminate].
    destruct (bool_decide (fa = FileActionType.CreateFile)).
    + by intros [= <- <- <-].
    + destruct (fl !! default p (rm !! p)); [|discriminate].
      by intros [= <- <- <-].
  - intros p lines -> Hs. rewrite Hs.
    destruct (bool_decide (fa = FileActionType.CreateFile));
      unfold decoded; eauto.
Qed.

(** C4. For an insert header: with [insert-before-line] the range is
    [start = end = before_line - 1], and an [insert-after-line] given as
    well must equal that start, else decoding raises
    [ValueError("Insert line numbers invalid")]; with [insert-after-line]
    alone the range is [start = end = after_line]; with neither, decoding
    raises [ValueError("Insert line number not specified")]. *)
Theorem insert_range_resolution fl rm sb jd d :
  json_loads (header_text sb) = inr jd →
  deserialize int_of_str jd = inr d →
  action d = Some _BlockParserAction.Insert →
  let result := _special_block json_loads int_of_str fl rm sb in
  let accepted (line : Z) : Prop :=
    resolve_action d _BlockParserAction.Insert
      = inr (line, Some line, FileActionType.UpdateFile) ∧
    (∀ di fe hc, result = inr (di, fe, hc) →
       first_changed_line di = line ∧ last_changed_line di = Some line) ∧
    (∀ p lines, file d = Some p → fl !! default p (rm !! p) = Some lines →
       ∃ di fe hc, result = inr (di, fe, hc)) in
  match before_line d, after_line d with
  | Some before, Some after =>
      if decide (after = before - 1) then accepted (before - 1)
      else result = inl (ValueError (Some "Insert line numbers invalid"))
  | Some before, None => accepted (before - 1)
  | None, Some after => accepted after
  | None, None =>
      result = inl (ValueError (Some "Insert line number not specified"))
  end.
Proof.
  intros Hl Hd Ha result accepted.
  assert (∀ line,
    resolve_action d _BlockParserAction.Insert
      = inr (line, Some line, FileActionType.UpdateFile) → accepted line)
    as Hacc.
  { intros line Hr. split; [exact Hr|].
    destruct (special_block_range fl rm _ _ _ _ _ _ _ Hl Hd Ha Hr)
      as [Hres Hex].
    split; [|exact Hex].
    intros di fe hc H. by destruct (Hres _ _ _ H) as (? & ? & _). }
  destruct (before_line d) as [before|] eqn:Hb,
           (after_line d) as [after|] eqn:Haf.
  - destruct (decide (after = before - 1)) as [->|Hne].
    + apply Hacc. unfold resolve_action. rewrite Hb, Haf.
      by rewrite bool_decide_eq_false_2 by (by intros ?).
    + apply (special_block_unresolved fl rm _ _ _ _ _ Hl Hd Ha).
      unfold resolve_action. rewrite Hb, Haf.
      by rewrite bool_decide_eq_true_2 by congruence.
  - apply Hacc. unfold resolve_action. by rewrite Hb, Haf.
  - apply Hacc. unfold resolve_action. by rewrite Hb, Haf.
  - apply (special_block_unresolved fl rm _ _ _ _ _ Hl Hd Ha).
    unfold resolve_action. by rewrite Hb, Haf.
Qed.

(** C5. For a replace or delete header with a [start-line], decoding
    yields [start = start-line - 1] and [end = end-line]; for delete the
    edit returned by the header decoder already holds
    [Replacement(start, end, [])], whether or not a code section follows,
    and for replace it holds no replacement yet. *)
Theorem replace_delete_range fl rm sb jd d act start :
  json_loads (header_text sb) = inr jd →
  deserialize int_of_str jd = inr d →
  action d = Some act →
  act = _BlockParserAction.Replace ∨ act = _BlockParserAction.Delete →
  start_line d = Some start →
  let result := _special_block json_loads int_of_str fl rm sb in
  resolve_action d act
    = inr (start - 1, end_line d, FileActionType.UpdateFile) ∧
  (∀ di fe hc, result = inr (di, fe, hc) →
     first_changed_line di = start - 1 ∧
     last_changed_line di = end_line d ∧
     replacements fe =
       match act with
       | _BlockParserAction.Delete =>
           [mkReplacement (start - 1) (end_line d) []]
       | _ => []
       end) ∧
  (∀ p lines, file d = Some p → fl !! default p (rm !! p) = Some lines →
     ∃ di fe hc, result = inr (di, fe, hc)).
Proof.
  intros Hl Hd Ha Hact Hs result.
  assert (resolve_action d act
          = inr (start - 1, end_line d, FileActionType.UpdateFile)) as Hr.
  { unfold resolve_action. destruct Hact as [-> | ->]; by rewrite Hs. }
  split; [exact Hr|].
  destruct (special_block_range fl rm _ _ _ _ _ _ _ Hl Hd Ha Hr)
    as [Hres Hex].
  split; [|exact Hex].
  intros di fe hc H. destruct (Hres _ _ _ H) as (H1 & H2 & H3).
  split; [exact H1|]. split; [exact H2|].
  rewrite H3. by destruct Hact as [-> | ->].
Qed.

End DecoderFacts.

Lemma split_lines_line (l rest : string) :
  one_line l = true →
  split_lines (l ++ NL ++ rest) = l :: split_lines rest.
Proof.
  induction l as [|c l IH]; intros H; [reflexivity|].
  simpl in H. apply andb_prop in H as [Hc Hl].
  change ((String c l ++ NL ++ rest)%string)
    with (String c (l ++ NL ++ rest)%string).
  cbn [split_lines].
  destruct (Ascii.eqb c LF); [discriminate|].
  by rewrite (IH Hl).
Qed.

Lemma split_lines_buffered (lines : list string) :
  Forall (fun l => one_line l = true) lines →
  split_lines (buffered lines) = (lines ++ [EmptyString])%list.
Proof.
  induction 1 as [|l lines Hl _ IH]; [reflexivity|].
  cbn [buffered]. by rewrite (split_lines_line _ _ Hl), IH.
Qed.

Lemma py_slice_drop_last_two {A : Type} (l : list A) (x y : A) :
  py_slice None (Some (-2)) (l ++ [x; y]) = l.
Proof.
  unfold py_slice, clamp_index. rewrite length_app. simpl.
  replace (Z.to_nat _) with (length l) by lia.
  change (Z.to_nat 0) with 0%nat. rewrite drop_0. by rewrite take_app_length.
Qed.

(** C9. [_add_code_block] appends exactly one [Replacement] to the edit
    the header decoder returned and changes nothing else in it; the range
    of that replacement is the range the header was resolved to, and when
    the code block is the text buffered up to the end marker its lines are
    the lines received before the marker. *)
Theorem code_block_appends_one_replacement
  (json_loads : string → Err (gmap string json))
  (int_of_str : string → option Z)
  (fl : gmap Path (list string)) (rm : gmap Path Path) (sb : string)
  jd d act s e fa di fe hc :
  json_loads (header_text sb) = inr jd →
  deserialize int_of_str jd = inr d →
  action d = Some act →
  resolve_action d act = inr (s, e, fa) →
  _special_block json_loads int_of_str fl rm sb = inr (di, fe, hc) →
  (∀ code_block,
     let fe' := _add_code_block sb code_block di fe in
     (∃ lines, replacements fe' =
                 (replacements fe ++ [mkReplacement s e lines])%list) ∧
     file_path fe' = file_path fe ∧
     is_creation fe' = is_creation fe ∧
     is_deletion fe' = is_deletion fe ∧
     rename_file_path fe' = rename_file_path fe) ∧
  (∀ (code_lines : list string) (marker : string),
     Forall (fun l => one_line l = true) code_lines →
     one_line marker = true →
     replacements
       (_add_code_block sb (buffered (code_lines ++ [marker])) di fe)
     = (replacements fe ++ [mkReplacement s e code_lines])%list).
Proof.
  intros Hl Hd Ha Hr Hres.
  destruct (special_block_range json_loads int_of_str fl rm
              _ _ _ _ _ _ _ Hl Hd Ha Hr) as [Hrange _].
  destruct (Hrange _ _ _ Hres) as (Hs & He & _).
  split.
  - intros code_block fe'. split; [|done].
    unfold fe', _add_code_block. simpl. rewrite Hs, He. eauto.
  - intros code_lines marker Hlines Hm. unfold _add_code_block. simpl.
    rewrite Hs, He, split_lines_buffered.
    + rewrite <- (app_assoc code_lines). cbn [app].
      by rewrite py_slice_drop_last_two.
    + apply Forall_app. split; [done|]. by constructor.
Qed.

(** ** The statements on the sample inputs *)

Section Samples.
Import Examples.

Local Abbreviation upd := CodeFileManager.get_updated_file_lines.

(** C1, on a sample: [f.txt] holds [b] while its snapshot is [a]; the user
    answers no at the conflict prompt, and the file ends up holding [X]. *)
Lemma sample_conflict_declined :
  disk (drifted (Some false)) !! "f.txt" = Some "b" ∧
  ∃ w', write_changes_to_files upd [replace_first] (drifted (Some false))
        = write_changes_to_files upd [] w' ∧
        disk w' = <["f.txt" := "X"]> (disk (drifted (Some false))) ∧
        sent w' = [conflict_warning "f.txt"; not_applying "f.txt"].
Proof.
  split; [reflexivity|].
  assert ("f.txt" ∈ files (drifted (Some false))) as Hin.
  { vm_compute. reflexivity. }
  exact (declined_conflict_still_overwrites upd replace_first
           (drifted (Some false)) [] ["a"] "b" ["X"] eq_refl eq_refl eq_refl
           Hin eq_refl eq_refl ltac:(discriminate) ltac:(discriminate)
           eq_refl).
Defined.

(** C2 as the specification words it fails here: the user declines the
    deletion of [f.txt], the edit also carries a rename to [g.txt], and
    afterwards [f.txt] is gone from the disk. *)
Lemma declined_deletion_counterexample :
  ¬ (is_deletion delete_and_rename = true →
     replies (world (Some false)) (asked (world (Some false))) = Some false →
     ∀ w', write_changes_to_files upd [delete_and_rename] (world (Some false))
           = (w', inr tt) →
           disk w' !! "f.txt" = disk (world (Some false)) !! "f.txt" ∧
           disk w' !! "g.txt" = None).
Proof.
  intros H.
  destruct (H eq_refl eq_refl
              (fst (write_changes_to_files upd [delete_and_rename]
                      (world (Some false)))) eq_refl) as [Hf _].
  vm_compute in Hf. discriminate Hf.
Qed.

(** C2 (amended), on a sample: the user declines the deletion of [f.txt],
    the edit carries nothing else, and [f.txt] keeps its content. *)
Lemma sample_deletion_declined :
  ∃ w', write_changes_to_files upd [delete_f] (world (Some false))
        = write_changes_to_files upd [] w' ∧
        disk w' = disk (world (Some false)) ∧
        files w' = files (world (Some false)).
Proof.
  assert ("f.txt" ∈ files (world (Some false))) as Hin.
  { vm_compute. reflexivity. }
  destruct (declined_deletion_falls_through upd delete_f (world (Some false))
              [] ["a"] "a" eq_refl eq_refl Hin eq_refl eq_refl eq_refl
              ltac:(discriminate)) as [_ H].
  destruct (H ["a"] eq_refl) as (w' & Hrun & _ & Hfiles & Hdisk).
  exists w'. split; [exact Hrun|]. split; [exact (Hdisk eq_refl)|exact Hfiles].
Defined.

(** C6, on a sample: [g.txt] is created, then the creation of the existing
    [f.txt] stops the batch; [g.txt] stays and the third edit never runs. *)
Lemma sample_rejected_creation :
  ∃ w1 msg,
    write_changes_to_files upd
      ([create "g.txt"] ++ create "f.txt" :: [replace_first]) (world None)
    = (w1, inl (MentatError msg)) ∧
    disk w1 = <["g.txt" := ""]> (disk (world None)).
Proof.
  pose (w1 := fst (write_changes_to_files upd [create "g.txt"] (world None))).
  assert (rejected (create "f.txt") w1) as Hrej.
  { left. split; [reflexivity|]. exists "a". reflexivity. }
  destruct (rejected_edit_is_batch_fatal upd [create "g.txt"] [replace_first]
              (create "f.txt") (world None) w1 eq_refl Hrej) as [msg Hm].
  exists w1, msg. split; [exact Hm|reflexivity].
Defined.

(** C7, on a sample: [f.txt] is renamed to the free path [g.txt] and the
    new content is written there. *)
Lemma sample_rename :
  ∃ w', write_changes_to_files upd [rename_and_replace] (world None)
        = write_changes_to_files upd [] w' ∧
        disk w' !! "g.txt" = Some "X" ∧
        disk w' !! "f.txt" = None ∧
        files w' = (files (world None) ∪ {["g.txt"]}) ∖ {["f.txt"]}.
Proof.
  destruct (rename_creates_then_deletes upd rename_and_replace (world None)
              (world None) ["a"] "g.txt" [] eq_refl eq_refl) as [_ H].
  destruct (H eq_refl)
    as (wa & wr & _ & _ & _ & _ & Hfiles & _ & _ & _ & Hgone & Hw).
  destruct (Hw ["X"] eq_refl) as (w' & Hrun & Hdisk & Hf).
  exists w'. split; [exact Hrun|]. rewrite Hdisk, Hf.
  split; [apply lookup_insert_eq|].
  split; [|exact Hfiles].
  rewrite lookup_insert_ne by discriminate. exact Hgone.
Defined.

(** C8, on a sample: the user accepts the deletion of [f.txt]. *)
Lemma sample_deletion_accepted :
  ∃ w', write_changes_to_files upd [delete_f] (world (Some true))
        = write_changes_to_files upd [] w' ∧
        disk w' !! "f.txt" = None ∧
        files w' = files (world (Some true)) ∖ {["f.txt"]}.
Proof.
  destruct (accepted_deletion_removes_file upd delete_f (world (Some true))
              (world (Some true)) [] eq_refl eq_refl) as [H _].
  destruct (H eq_refl) as (w' & Hrun & _ & Hgone & Hfiles & _).
  exists w'. split; [exact Hrun|]. split; [exact Hgone|exact Hfiles].
Defined.



(** C4, on the four samples of the specification: before 5 alone, after 4
    alone, and before 5 with after 4 are accepted with [start = end = 4];
    before 5 with after 5 is refused. *)
Lemma sample_insert_ranges :
  (∀ before after,
     (before, after) ∈ [(Some 5, None); (None, Some 4); (Some 5, Some 4)] →
     ∃ di fe hc,
       _special_block (loads (insert_header before after)) no_int_of_str
                      snapshot ∅ block = inr (di, fe, hc) ∧
       first_changed_line di = 4 ∧ last_changed_line di = Some 4) ∧
  _special_block (loads (insert_header (Some 5) (Some 5))) no_int_of_str
                 snapshot ∅ block
  = inl (ValueError (Some "Insert line numbers invalid")).
Proof.
  split.
  - intros before after Hin.
    assert (∀ line,
      (resolve_action (insert_fields before after) _BlockParserAction.Insert
         = inr (line, Some line, FileActionType.UpdateFile) ∧
       (∀ di fe hc,
          _special_block (loads (insert_header before after)) no_int_of_str
                         snapshot ∅ block = inr (di, fe, hc) →
          first_changed_line di = line ∧ last_changed_line di = Some line) ∧
       (∀ p lines, file (insert_fields before after) = Some p →
          snapshot !! default p ((∅ : gmap Path Path) !! p) = Some lines →
          ∃ di fe hc,
            _special_block (loads (insert_header before after)) no_int_of_str
                           snapshot ∅ block = inr (di, fe, hc))) →
      ∃ di fe hc,
        _special_block (loads (insert_header before after)) no_int_of_str
                       snapshot ∅ block = inr (di, fe, hc) ∧
        first_changed_line di = line ∧ last_changed_line di = Some line)
      as Huse.
    { intros line (_ & Hrange & Hex).
      destruct (Hex "f.txt" four_lines eq_refl eq_refl)
        as (di & fe & hc & Hrun).
      exists di, fe, hc. split; [exact Hrun|]. exact (Hrange _ _ _ Hrun). }
    apply elem_of_cons in Hin as [[= -> ->]|Hin].
    { apply Huse.
      exact (insert_range_resolution (loads (insert_header (Some 5) None))
               no_int_of_str snapshot ∅ block (insert_header (Some 5) None)
               (insert_fields (Some 5) None) eq_refl eq_refl eq_refl). }
    apply elem_of_cons in Hin as [[= -> ->]|Hin].
    { apply Huse.
      exact (insert_range_resolution (loads (insert_header None (Some 4)))
               no_int_of_str snapshot ∅ block (insert_header None (Some 4))
               (insert_fields None (Some 4)) eq_refl eq_refl eq_refl). }
    apply list_elem_of_singleton in Hin as [= -> ->].
    apply Huse.
    exact (insert_range_resolution (loads (insert_header (Some 5) (Some 4)))
             no_int_of_str snapshot ∅ block (insert_header (Some 5) (Some 4))
             (insert_fields (Some 5) (Some 4)) eq_refl eq_refl eq_refl).
  - exact (insert_range_resolution (loads (insert_header (Some 5) (Some 5)))
             no_int_of_str snapshot ∅ block (insert_header (Some 5) (Some 5))
             (insert_fields (Some 5) (Some 5)) eq_refl eq_refl eq_refl).
Defined.

(** C5, on a sample: a delete header for lines 2 to 3. *)
Lemma sample_delete_range :
  ∃ di fe hc,
    _special_block (loads (range_header "delete" 2 3)) no_int_of_str
                   snapshot ∅ block = inr (di, fe, hc) ∧
    first_changed_line di = 1 ∧ last_changed_line di = Some 3 ∧
    replacements fe = [mkReplacement 1 (Some 3) []].
Proof.
  destruct (replace_delete_range (loads (range_header "delete" 2 3))
              no_int_of_str snapshot ∅ block (range_header "delete" 2 3)
              (range_fields _BlockParserAction.Delete 2 3)
              _BlockParserAction.Delete 2 eq_refl eq_refl eq_refl
              (or_intror eq_refl) eq_refl) as (_ & Hrange & Hex).
  destruct (Hex "f.txt" four_lines eq_refl eq_refl) as (di & fe & hc & Hrun).
  exists di, fe, hc. split; [exact Hrun|]. exact (Hrange _ _ _ Hrun).
Defined.

(** C9, on the sample of the specification: a replace header for lines 2
    to 3 followed by the code lines [XXX] and [YYY]; applied to the four
    lines of the file, the edit gives [aaa], [XXX], [YYY], [ddd]. *)
Lemma sample_code_block :
  ∃ di fe hc,
    _special_block (loads (range_header "replace" 2 3)) no_int_of_str
                   snapshot ∅ block = inr (di, fe, hc) ∧
    replacements
      (_add_code_block block (buffered ["XXX"; "YYY"; "@@end"]) di fe)
    = [mkReplacement 1 (Some 3) ["XXX"; "YYY"]] ∧
    upd (_add_code_block block (buffered ["XXX"; "YYY"; "@@end"]) di fe)
        four_lines
    = inr ["aaa"; "XXX"; "YYY"; "ddd"].
Proof.
  pose (r := _special_block (loads (range_header "replace" 2 3))
               no_int_of_str snapshot ∅ block).
  assert (∃ di fe hc, r = inr (di, fe, hc) ∧ replacements fe = [])
    as (di & fe & hc & Hrun & Hnone).
  { vm_compute. eauto. }
  exists di, fe, hc. split; [exact Hrun|].
  destruct (code_block_appends_one_replacement
              (loads (range_header "replace" 2 3)) no_int_of_str snapshot ∅
              block (range_header "replace" 2 3)
              (range_fields _BlockParserAction.Replace 2 3)
              _BlockParserAction.Replace 1 (Some 3)
              FileActionType.UpdateFile di fe hc
              eq_refl eq_refl eq_refl eq_refl Hrun) as [_ H].
  specialize (H ["XXX"; "YYY"] "@@end" ltac:(repeat constructor) eq_refl).
  rewrite Hnone in H. split; [exact H|].
  unfold upd, get_updated_file_lines.
  change (buffered (["XXX"; "YYY"] ++ ["@@end"]))
    with (buffered ["XXX"; "YYY"; "@@end"]) in H.
  rewrite H. reflexivity.
Defined.
End Samples.

(** ** Further properties of the block dialect *)

Lemma prefix_app_l (s t v : string) :
  String.prefix (s ++ t) v = true → String.prefix s v = true.
Proof.
  revert v. induction s as [|c s IH]; intros v; [by destruct v|].
  destruct v as [|c' v]; simpl; [discriminate|].
  destruct (ascii_dec c c'); [apply IH|discriminate].
Qed.

Lemma prefix_refl (s : string) : String.prefix s s = true.
Proof.
  induction s as [|c s IH]; [reflexivity|].
  simpl. by destruct (ascii_dec c c).
Qed.

(** X1. A partial line that can still grow into an indicator only has
    beginnings that can: once [_could_be_special] has ruled a partial
    line out, no continuation of it is accepted. *)
Theorem could_be_special_prefix_closed (s t : string) :
  _could_be_special (s ++ t) = true → _could_be_special s = true.
Proof.
  unfold _could_be_special. rewrite !existsb_exists.
  intros (i & Hi & Hp). exists i. split; [exact Hi|].
  by apply prefix_app_l with t.
Qed.

(** X2. The hooks agree with one another: a line that starts or ends a
    special block could be special, the line that ends a code section
    also ends a special block, and no line both starts and ends one. *)
Theorem indicator_hooks_agree (line : string) :
  (_starts_special line = true ∨ _ends_special line = true →
   _could_be_special line = true) ∧
  (_ends_code line = true → _ends_special line = true) ∧
  ¬ (_starts_special line = true ∧ _ends_special line = true).
Proof.
  unfold _starts_special, _ends_special, _ends_code.
  split; [|split].
  - intros [H|H].
    + apply bool_decide_eq_true_1 in H as ->. reflexivity.
    + apply orb_prop in H as [H|H];
        apply bool_decide_eq_true_1 in H as ->; reflexivity.
  - intros ->. apply orb_true_r.
  - intros [H1 H2]. apply bool_decide_eq_true_1 in H1 as ->.
    vm_compute in H2. discriminate H2.
Qed.

(** X3. [_BlockParserAction(s)] finds the member whose value is [s] and
    no other: a string is accepted exactly when it is the value of the
    member returned, and anything else raises [ValueError]. *)
Theorem action_of_value (s : string) (a : _BlockParserAction.t) :
  (to_action (JStr s) = inr a ↔ s = _BlockParserAction.value a) ∧
  ((∀ a', s ≠ _BlockParserAction.value a') →
   to_action (JStr s) = inl (ValueError None)).
Proof.
  split; [split|].
  - unfold to_action, _BlockParserAction.members.
    rewrite !filter_cons, filter_nil.
    repeat match goal with
           | |- context [decide (?v = s)] =>
               destruct (decide (v = s)) as [<-|?]; [by intros [= <-]|]
           end.
    unfold raise. discriminate.
  - intros ->. by destruct a.
  - intros Hno. unfold to_action, _BlockParserAction.members.
    rewrite !filter_cons, filter_nil.
    repeat match goal with
           | |- context [decide (?v = s)] =>
               destruct (decide (v = s)) as [Hv|?];
               [exfalso; eapply Hno; symmetry; exact Hv|]
           end.
    reflexivity.
Qed.

Lemma py_slice_empty_range {A : Type} (l : list A) :
  py_slice (Some 0) (Some 0) l = [].
Proof.
  unfold py_slice, clamp_index. simpl.
  replace (Z.min 0 (Z.of_nat (length l)) - Z.min 0 (Z.of_nat (length l)))
    with 0 by lia.
  reflexivity.
Qed.

Section DecoderMore.
Variable json_loads : string → Err (gmap string json).
Variable int_of_str : string → option Z.
Implicit Types (d : _BlockParserDeserializedJson) (fl : gmap Path (list string))
  (rm : gmap Path Path) (sb : string).

(** X4. A header field that is JSON [null] is decoded like a field that
    is absent, whichever of the seven keys it is. *)
Theorem null_field_is_absent (k : _BlockParserJsonKeys.t)
  (jd : gmap string json) :
  deserialize int_of_str (<[_BlockParserJsonKeys.value k := JNull]> jd)
  = deserialize int_of_str (delete (_BlockParserJsonKeys.value k) jd).
Proof.
  assert (∀ k', get (<[_BlockParserJsonKeys.value k := JNull]> jd) k'
                = get (delete (_BlockParserJsonKeys.value k) jd) k') as Hget.
  { intros k'. unfold get.
    destruct (decide (_BlockParserJsonKeys.value k
                      = _BlockParserJsonKeys.value k')) as [<-|Hne].
    - by rewrite lookup_insert_eq, lookup_delete_eq.
    - by rewrite lookup_insert_ne, lookup_delete_ne. }
  unfold deserialize. by rewrite !Hget.
Qed.

(** Every edit that [_special_block] returns comes out of the last step
    of the decoder. *)
Lemma special_block_inv fl rm sb r :
  _special_block json_loads int_of_str fl rm sb = inr r →
  ∃ jd d act s e fa p lines,
    json_loads (header_text sb) = inr jd ∧
    deserialize int_of_str jd = inr d ∧
    action d = Some act ∧
    resolve_action d act = inr (s, e, fa) ∧
    file d = Some p ∧
    (if bool_decide (fa = FileActionType.CreateFile) then lines = []
     else fl !! default p (rm !! p) = Some lines) ∧
    r = decoded sb d act s e fa p lines.
Proof.
  intros H.
  destruct (json_loads (header_text sb)) as [err|jd] eqn:Hl.
  { unfold _special_block in H. fold (header_text sb) in H.
    by rewrite Hl in H. }
  destruct (deserialize int_of_str jd) as [err|d] eqn:Hd.
  { unfold _special_block in H. fold (header_text sb) in H.
    rewrite Hl in H. simpl in H. unfold mbind, err_bind in H.
    by rewrite Hd in H. }
  destruct (action d) as [act|] eqn:Ha.
  2:{ unfold _special_block in H. fold (header_text sb) in H.
      rewrite Hl in H. simpl in H. unfold mbind, err_bind in H.
      by rewrite Hd, Ha in H. }
  destruct (resolve_action d act) as [err|[[s e] fa]] eqn:Hr.
  { by rewrite (special_block_unresolved json_loads int_of_str
                  fl rm _ _ _ _ _ Hl Hd Ha Hr) in H. }
  rewrite (special_block_resolved json_loads int_of_str
             fl rm _ _ _ _ _ _ _ Hl Hd Ha Hr) in H.
  destruct (file d) as [p|] eqn:Hp; [|discriminate].
  destruct (bool_decide (fa = FileActionType.CreateFile)) eqn:Hfa.
  - injection H as <-. exists jd, d, act, s, e, fa, p, [].
    rewrite Hfa. by repeat split.
  - destruct (fl !! default p (rm !! p)) as [lines|] eqn:Hs; [|discriminate].
    injection H as <-. exists jd, d, act, s, e, fa, p, lines.
    rewrite Hfa. by repeat split.
Qed.

(** X5. Whatever the header, an edit returned by [_special_block] is never
    both a creation and a deletion; it is a creation exactly when the
    display says so, and then it has no snapshot lines; it carries at most
    one replacement, which deletes the displayed range; its rename target
    is the displayed new name, its path the displayed file, and the
    removed block is the displayed range of the snapshot lines. *)
Theorem decoded_edit_shape fl rm sb di fe hc :
  _special_block json_loads int_of_str fl rm sb = inr (di, fe, hc) →
  ¬ (is_creation fe = true ∧ is_deletion fe = true) ∧
  (is_creation fe = true ↔
   file_action_type di = FileActionType.CreateFile) ∧
  (is_deletion fe = true ↔
   file_action_type di = FileActionType.DeleteFile) ∧
  (is_creation fe = true → di_file_lines di = []) ∧
  (replacements fe = [] ∨
   replacements fe = [mkReplacement (first_changed_line di)
                                    (last_changed_line di) []]) ∧
  rename_file_path fe = new_name di ∧
  file_name di = Some (file_path fe) ∧
  added_block di = [] ∧
  removed_block di = py_slice (Some (first_changed_line di))
                              (last_changed_line di) (di_file_lines di).
Proof.
  intros H.
  destruct (special_block_inv _ _ _ _ H)
    as (jd & d & act & s & e & fa & p & lines & _ & _ & _ & _ & _ & Hlines & Hr).
  unfold decoded in Hr. injection Hr as -> -> ->. simpl.
  split; [|split; [|split; [|split; [|split]]]].
  - intros [H1 H2]. apply bool_decide_eq_true_1 in H1.
    apply bool_decide_eq_true_1 in H2. congruence.
  - apply bool_decide_eq_true.
  - apply bool_decide_eq_true.
  - intros H1. by rewrite H1 in Hlines.
  - destruct (bool_decide (act = _BlockParserAction.Delete)); auto.
  - done.
Qed.

(** X6. A header that lacks a field its action needs raises [TypeError]:
    a replace or delete header without [start-line], and any header
    without [file] once its range is resolved. *)
Theorem missing_field_is_type_error fl rm sb jd d act :
  json_loads (header_text sb) = inr jd →
  deserialize int_of_str jd = inr d →
  action d = Some act →
  (act = _BlockParserAction.Replace ∨ act = _BlockParserAction.Delete →
   start_line d = None →
   _special_block json_loads int_of_str fl rm sb = inl TypeError) ∧
  (∀ r, resolve_action d act = inr r → file d = None →
   _special_block json_loads int_of_str fl rm sb = inl TypeError).
Proof.
  intros Hl Hd Ha. split.
  - intros Hact Hs.
    apply (special_block_unresolved json_loads int_of_str
             fl rm _ _ _ _ _ Hl Hd Ha).
    unfold resolve_action. destruct Hact as [-> | ->]; by rewrite Hs.
  - intros [[s e] fa] Hr Hf.
    by rewrite (special_block_resolved json_loads int_of_str
                  fl rm _ _ _ _ _ _ _ Hl Hd Ha Hr), Hf.
Qed.

(** X7. The three file-level actions give edits without replacement and
    with the empty range [0, 0): a create-file header is decoded without
    looking at any snapshot and gives a creation; a delete-file or
    rename-file header whose snapshot is found gives an edit that is not a
    creation and is a deletion exactly for delete-file. *)
Theorem file_actions_decode fl rm sb jd d act p :
  json_loads (header_text sb) = inr jd →
  deserialize int_of_str jd = inr d →
  action d = Some act →
  file d = Some p →
  let result := _special_block json_loads int_of_str fl rm sb in
  (act = _BlockParserAction.CreateFile →
   ∃ di fe hc, result = inr (di, fe, hc) ∧
     is_creation fe = true ∧ is_deletion fe = false ∧
     replacements fe = [] ∧ di_file_lines di = [] ∧
     rename_file_path fe = name d) ∧
  (act = _BlockParserAction.DeleteFile ∨
   act = _BlockParserAction.RenameFile →
   ∀ lines, fl !! default p (rm !! p) = Some lines →
   ∃ di fe hc, result = inr (di, fe, hc) ∧
     is_creation fe = false ∧
     is_deletion fe = bool_decide (act = _BlockParserAction.DeleteFile) ∧
     replacements fe = [] ∧ removed_block di = [] ∧
     first_changed_line di = 0 ∧ last_changed_line di = Some 0 ∧
     rename_file_path fe = name d).
Proof.
  intros Hl Hd Ha Hp result. unfold result. split.
  - intros ->.
    rewrite (special_block_resolved json_loads int_of_str fl rm _ _ _ _
               0 (Some 0) FileActionType.CreateFile Hl Hd Ha eq_refl), Hp.
    simpl. unfold decoded. eauto 10.
  - intros Hact lines Hs.
    assert (∃ fa, resolve_action d act = inr (0, Some 0, fa) ∧
                  fa ≠ FileActionType.CreateFile ∧
                  bool_decide (fa = FileActionType.DeleteFile)
                  = bool_decide (act = _BlockParserAction.DeleteFile))
      as (fa & Hr & Hfa & Hdel).
    { destruct Hact as [-> | ->]; eexists; by repeat split. }
    rewrite (special_block_resolved json_loads int_of_str fl rm _ _ _ _
               _ _ _ Hl Hd Ha Hr), Hp, Hs.
    rewrite bool_decide_eq_false_2 by done.
    unfold decoded. do 3 eexists. split; [reflexivity|]. simpl.
    rewrite bool_decide_eq_false_2 by done.
    rewrite py_slice_empty_range, Hdel.
    destruct Hact as [-> | ->]; by repeat split.
Qed.
End DecoderMore.

Lemma split_lines_length (s : string) :
  length (split_lines s) = S (count_LF s).
Proof.
  induction s as [|c s IH]; [reflexivity|].
  simpl. destruct (Ascii.eqb c LF); simpl; [by rewrite IH|].
  pose proof (split_lines_nonempty s).
  destruct (split_lines s); [done|]. simpl in *. lia.
Qed.

Lemma py_slice_drop_two_length {A : Type} (l : list A) :
  length (py_slice None (Some (-2)) l) = (length l - 2)%nat.
Proof.
  unfold py_slice, clamp_index. simpl.
  change (Z.to_nat 0) with 0%nat. rewrite drop_0, length_take. lia.
Qed.

(** X8. The replacement that [_add_code_block] appends has one line less
    than the code block has line feeds, and none when the block has at
    most one: the last two pieces of the split are always dropped. *)
Theorem code_block_line_count (sb cb : string) (di : DisplayInformation)
  (fe : FileEdit) :
  ∃ lines,
    replacements (_add_code_block sb cb di fe)
    = (replacements fe ++
         [mkReplacement (first_changed_line di) (last_changed_line di)
                        lines])%list ∧
    length lines = (count_LF cb - 1)%nat.
Proof.
  eexists. split; [reflexivity|].
  rewrite py_slice_drop_two_length, split_lines_length. lia.
Qed.

(** ** What a batch can and cannot change *)

Lemma evolves_refl (n : nat) (w : World) : evolves n w w.
Proof. unfold evolves. repeat split; try done; lia. Qed.

Lemma evolves_trans (n k : nat) (w w1 w2 : World) :
  evolves n w w1 → evolves k w1 w2 → evolves (n + k) w w2.
Proof.
  intros (Hf1 & Hr1 & Ha1 & Hs1 & Ht1) (Hf2 & Hr2 & Ha2 & Hs2 & Ht2).
  unfold evolves. rewrite Hf2, Hr2.
  split; [done|]. split; [done|]. split; [lia|].
  split; [by etrans|auto].
Qed.

Lemma bounded_ret {A : Type} (n : nat) (a : A) : bounded n (mret a).
Proof. intros w w' r [= <- _]. apply evolves_refl. Qed.

Lemma bounded_throw {A : Type} (n : nat) (e : exn) :
  bounded n (throw e : M A).
Proof. intros w w' r [= <- _]. apply evolves_refl. Qed.

Lemma bounded_lift {A : Type} (n : nat) (x : Err A) : bounded n (lift x).
Proof. intros w w' r [= <- _]. apply evolves_refl. Qed.

Lemma bounded_get_world (n : nat) : bounded n get_world.
Proof. intros w w' r [= <- _]. apply evolves_refl. Qed.

Lemma bounded_path_exists (n : nat) (p : Path) : bounded n (path_exists p).
Proof. intros w w' r [= <- _]. apply evolves_refl. Qed.

Lemma bounded_read_file (n : nat) (p : Path) : bounded n (read_file p).
Proof.
  intros w w' r. unfold read_file.
  destruct (disk w !! p); intros [= <- _]; apply evolves_refl.
Qed.

Lemma bounded_send (n : nat) (text : string) (color : option string) :
  bounded n (stream_send text color).
Proof.
  intros w w' r [= <- _]. unfold evolves. simpl.
  repeat split; try done; try lia. by apply prefix_app_r.
Qed.

Lemma bounded_ask (n : nat) (default_yes : bool) :
  bounded (S n) (ask_yes_no default_yes).
Proof.
  intros w w' r [= <- _]. unfold evolves. simpl.
  repeat split; try done; lia.
Qed.

Lemma bounded_write_text (n : nat) (p : Path) (text : string) :
  bounded n (write_text p text).
Proof.
  intros w w' r [= <- _]. unfold evolves. simpl.
  repeat split; try done; try lia.
  intros Ht q Hq. simpl in *.
  destruct (decide (p = q)) as [->|Hne].
  - rewrite lookup_insert_eq. eauto.
  - rewrite lookup_insert_ne by done. by apply Ht.
Qed.

Lemma bounded_add_file (n : nat) (p : Path) : bounded n (_add_file p).
Proof.
  intros w w' r [= <- _]. unfold evolves. simpl.
  repeat split; try done; try lia.
  intros Ht q Hq. simpl in *.
  destruct (decide (p = q)) as [->|Hne].
  - rewrite lookup_insert_eq. eauto.
  - rewrite lookup_insert_ne by done. apply Ht.
    apply elem_of_union in Hq as [Hq|Hq]; [done|].
    apply elem_of_singleton in Hq. congruence.
Qed.

Lemma bounded_delete_file (n : nat) (p : Path) : bounded n (_delete_file p).
Proof.
  intros w w' r. unfold _delete_file. run_m.
  destruct (bool_decide (is_Some (disk w !! p))); intros [= <- _];
    unfold evolves; simpl; (repeat split; try done; try lia);
    intros Ht q Hq; simpl in *;
    apply elem_of_difference in Hq as [Hq Hne];
    rewrite elem_of_singleton in Hne.
  - rewrite lookup_delete_ne by congruence. by apply Ht.
  - by apply Ht.
Qed.

Lemma bounded_bind {A B : Type} (n k : nat) (m : M A) (f : A → M B) :
  bounded n m → (∀ a, bounded k (f a)) → bounded (n + k) (m ≫= f).
Proof.
  intros Hm Hf w w' r. rewrite bind_unfold.
  destruct (m w) as [w1 [err|a]] eqn:E.
  - intros [= <- _]. replace (n + k)%nat with (n + 0 + k)%nat by lia.
    eapply evolves_trans; [|apply evolves_refl].
    eapply evolves_trans; [by eapply Hm|apply evolves_refl].
  - intros H. eapply evolves_trans; [by eapply Hm|by eapply Hf].
Qed.

Ltac quiet :=
  repeat first
    [ apply bounded_ret | apply bounded_throw | apply bounded_lift
    | apply bounded_get_world | apply bounded_path_exists
    | apply bounded_read_file | apply bounded_send | apply bounded_write_text
    | apply bounded_add_file | apply bounded_delete_file
    | (apply (bounded_bind 0 0); [|intros ?])
    | match goal with
      | |- bounded _ (if ?b then _ else _) => destruct b
      | |- bounded _ (match ?x with _ => _ end) => destruct x
      end ].

Section Evolution.
Variable upd : FileEdit → list string → Err (list string).
Implicit Types (e : FileEdit) (w : World) (p : Path).

Lemma bounded_check_target e : bounded 0 (check_target e).
Proof. unfold check_target. quiet. Qed.

Lemma bounded_confirm_deletion e p : bounded 1 (confirm_deletion e p).
Proof.
  unfold confirm_deletion. destruct (is_deletion e); [|apply bounded_ret].
  apply (bounded_bind 0 1); [apply bounded_send|intros _].
  apply (bounded_bind 1 0); [apply bounded_ask|intros yes].
  quiet.
Qed.

Lemma bounded_conflict_check e p : bounded 1 (conflict_check e p).
Proof.
  unfold conflict_check. destruct (negb (is_creation e)); [|apply bounded_ret].
  apply (bounded_bind 0 1); [apply bounded_get_world|intros w0].
  apply (bounded_bind 0 1); [apply bounded_lift|intros stored].
  apply (bounded_bind 0 1); [apply bounded_read_file|intros current].
  apply (bounded_bind 1 0); [|intros _; apply bounded_ret].
  destruct (bool_decide (stored ≠ current)); [|apply bounded_ret].
  apply (bounded_bind 0 1); [apply bounded_send|intros _].
  apply (bounded_bind 1 0); [apply bounded_ask|intros yes].
  quiet.
Qed.

Lemma bounded_rename_step e : bounded 0 (rename_step e).
Proof. unfold rename_step. quiet. Qed.

Lemma bounded_write_step e stored : bounded 0 (write_step upd e stored).
Proof. unfold write_step. quiet. Qed.

Lemma bounded_loop_body e : bounded 2 (loop_body upd e).
Proof.
  unfold loop_body, before_rename.
  apply (bounded_bind 2 0).
  - apply (bounded_bind 0 2); [apply bounded_check_target|intros _].
    apply (bounded_bind 1 1); [apply bounded_confirm_deletion|intros deleted].
    destruct deleted; [apply bounded_ret|].
    apply (bounded_bind 1 0); [apply bounded_conflict_check|intros stored].
    apply bounded_ret.
  - intros [stored|]; [|apply bounded_ret].
    apply (bounded_bind 0 0); [apply bounded_rename_step|intros e'].
    apply bounded_write_step.
Qed.

Lemma bounded_write_changes (file_edits : list FileEdit) :
  bounded (2 * length file_edits) (write_changes_to_files upd file_edits).
Proof.
  induction file_edits as [|e rest IH]; [apply bounded_ret|].
  cbn [write_changes_to_files length].
  replace (2 * S (length rest))%nat with (2 + 2 * length rest)%nat by lia.
  apply bounded_bind; [apply bounded_loop_body|intros _; exact IH].
Qed.

(** X9. Whatever a batch does, and whether it ends normally or with an
    exception, it leaves the snapshot [file_lines] as it was, and it only
    appends to the messages sent. *)
Theorem batch_keeps_snapshot (file_edits : list FileEdit) w :
  let w' := (write_changes_to_files upd file_edits w).1 in
  file_lines w' = file_lines w ∧ sent w `prefix_of` sent w'.
Proof.
  intros w'. subst w'.
  destruct (write_changes_to_files upd file_edits w) as [w1 r] eqn:E.
  by destruct (bounded_write_changes file_edits _ _ _ E) as (? & _ & _ & ? & _).
Qed.

(** X10. A batch asks the user at most two questions per edit. *)
Theorem batch_asks_at_most_two_per_edit (file_edits : list FileEdit) w :
  let w' := (write_changes_to_files upd file_edits w).1 in
  (asked w ≤ asked w' ≤ asked w + 2 * length file_edits)%nat.
Proof.
  intros w'. subst w'.
  destruct (write_changes_to_files upd file_edits w) as [w1 r] eqn:E.
  by destruct (bounded_write_changes file_edits _ _ _ E) as (_ & _ & ? & _).
Qed.

End Evolution.

(** ** Reading, writing and the snapshot *)

Lemma split_lines_one_line (l : string) :
  one_line l = true → split_lines l = [l].
Proof.
  induction l as [|c l IH]; intros H; [reflexivity|].
  simpl in H. apply andb_prop in H as [Hc Hl]. simpl.
  destruct (Ascii.eqb c LF); [discriminate|]. by rewrite (IH Hl).
Qed.

Lemma split_join_lines (lines : list string) :
  lines ≠ [] →
  Forall (fun l => one_line l = true) lines →
  split_lines (join_lines lines) = lines.
Proof.
  intros Hne Hall. induction Hall as [|l rest Hl Hrest IH]; [done|].
  destruct rest as [|l' rest].
  - by apply split_lines_one_line.
  - change (join_lines (l :: l' :: rest))
      with (l ++ NL ++ join_lines (l' :: rest))%string.
    rewrite (split_lines_line _ _ Hl). by rewrite IH.
Qed.

Section Snapshot.
Variable upd : FileEdit → list string → Err (list string).
Implicit Types (e : FileEdit) (w : World) (p : Path).

(** X12. What the engine writes is what [read_file] reads back: lines
    with neither line feed nor carriage return, written with
    ["\n".join], are read back as they are, except that no line at all is
    read back as one empty line. *)
Theorem write_then_read p (lines : list string) w :
  Forall (fun l => one_line l = true ∧ no_CR l = true) lines →
  (write_text p (join_lines lines) ≫= (fun _ => read_file p)) w
  = (set_disk (insert p (join_lines lines)) w,
     inr (match lines with [] => [EmptyString] | _ => lines end)).
Proof.
  intros Hall. unfold write_text, read_file. run_m.
  rewrite lookup_insert_eq. destruct lines as [|l rest]; [reflexivity|].
  rewrite split_join_lines; [reflexivity|done|].
  eapply Forall_impl; [exact Hall|]. by intros x [? _].
Qed.

(** X13. For a file whose text has no carriage return, writing back the
    lines that [read_file] returned leaves the disk as it was. *)
Theorem read_then_write p (text : string) (lines : list string) w w1 :
  disk w !! p = Some text →
  no_CR text = true →
  read_file p w = (w1, inr lines) →
  disk (write_text p (join_lines lines) w1).1 = disk w.
Proof.
  intros Hp _. unfold read_file. rewrite Hp.
  intros [= <- <-]. simpl. rewrite join_split_lines. by apply insert_id.
Qed.

Lemma read_each_found (keys : list Path) w :
  (∀ p, p ∈ keys → is_Some (disk w !! p)) →
  ∃ w', read_each keys w = (w', inr tt) ∧
        disk w' = disk w ∧ files w' = files w ∧
        replies w' = replies w ∧ asked w' = asked w ∧ sent w' = sent w ∧
        ∀ p, file_lines w' !! p =
             if decide (p ∈ keys) then split_lines <$> disk w !! p
             else file_lines w !! p.
Proof.
  revert w. induction keys as [|k keys IH]; intros w Hall.
  { exists w. repeat split; try done. }
  destruct (Hall k ltac:(left)) as [text Hk].
  destruct (IH (set_file_lines (insert k (split_lines text)) w))
    as (w' & Hrun & Hd & Hf & Hr & Ha & Hs & Hl).
  { intros p Hp. simpl. apply Hall. by right. }
  exists w'. split.
  { cbn [read_each]. unfold read_file. run_m. rewrite Hk. exact Hrun. }
  repeat split; try done.
  intros p. rewrite Hl. simpl.
  destruct (decide (p = k)) as [->|Hne].
  - rewrite (decide_True (P := k ∈ k :: keys)) by left. rewrite Hk. simpl.
    destruct (decide (k ∈ keys)); [done|]. by rewrite lookup_insert_eq.
  - rewrite lookup_insert_ne by done.
    destruct (decide (p ∈ keys)) as [Hin|Hin].
    + by rewrite (decide_True (P := p ∈ k :: keys)) by (by right).
    + rewrite (decide_False (P := p ∈ k :: keys)); [done|].
      intros [?|?]%elem_of_cons; done.
Qed.

Lemma read_each_missing (keys : list Path) p w :
  p ∈ keys → disk w !! p = None →
  ∃ w', read_each keys w = (w', inl FileNotFoundError) ∧
        disk w' = disk w ∧ files w' = files w.
Proof.
  revert w. induction keys as [|k keys IH]; intros w Hin Hp.
  { by apply elem_of_nil in Hin. }
  cbn [read_each]. unfold read_file. run_m.
  destruct (disk w !! k) as [text|] eqn:Hk; [|by exists w].
  apply elem_of_cons in Hin as [->|Hin]; [congruence|].
  destruct (IH (set_file_lines (insert k (split_lines text)) w) Hin Hp)
    as (w' & Hrun & Hd & Hf).
  exists w'. by rewrite Hrun.
Qed.

(** X14. When every tracked path is a file on disk, [read_all_file_lines]
    replaces the snapshot by the lines of exactly the tracked files, in
    whatever order the paths come, and changes nothing else. *)
Theorem snapshot_of_tracked_files (keys : list Path) w :
  (∀ p, p ∈ keys ↔ p ∈ files w) →
  tracked_on_disk w →
  ∃ w', read_all_file_lines keys w = (w', inr tt) ∧
        disk w' = disk w ∧ files w' = files w ∧
        asked w' = asked w ∧ sent w' = sent w ∧
        ∀ p, file_lines w' !! p =
             if decide (p ∈ files w) then split_lines <$> disk w !! p
             else None.
Proof.
  intros Hkeys Ht.
  destruct (read_each_found keys (set_file_lines (fun _ => ∅) w))
    as (w' & Hrun & Hd & Hf & _ & Ha & Hs & Hl).
  { intros p Hp. apply Ht. by apply Hkeys. }
  exists w'. split; [exact Hrun|]. repeat split; try done.
  intros p. rewrite Hl. simpl.
  destruct (decide (p ∈ keys)) as [Hin|Hin].
  - by rewrite decide_True by (by apply Hkeys).
  - rewrite decide_False by (by rewrite <- Hkeys). apply lookup_empty.
Qed.

(** X15. When one of the paths is not a file on disk,
    [read_all_file_lines] raises [FileNotFoundError]; the disk and the
    tracked set are as before. *)
Theorem snapshot_of_missing_file (keys : list Path) p w :
  p ∈ keys → disk w !! p = None →
  ∃ w', read_all_file_lines keys w = (w', inl FileNotFoundError) ∧
        disk w' = disk w ∧ files w' = files w.
Proof.
  intros Hin Hp.
  destruct (read_each_missing keys p (set_file_lines (fun _ => ∅) w) Hin Hp)
    as (w' & Hrun & Hd & Hf).
  exists w'. by rewrite <- Hrun.
Qed.

Lemma plain_edit_run e w stored text new_lines :
  is_creation e = false → is_deletion e = false →
  rename_file_path e = None →
  file_path e ∈ files w →
  disk w !! file_path e = Some text →
  file_lines w !! file_path e = Some stored →
  stored = split_lines text →
  upd e stored = inr new_lines →
  loop_body upd e w
  = (set_disk (insert (file_path e) (join_lines new_lines)) w, inr tt).
Proof.
  intros Hc Hd Hr Hf Hdisk Hsnap Heq Hu.
  assert (before_rename e w = (w, inr (Some stored))) as Hb.
  { rewrite (before_rename_run _ _ _ _ _
               (check_target_existing _ _ Hc ltac:(eauto) Hf)
               (confirm_deletion_skip _ _ _ Hd)).
    by rewrite (conflict_check_unchanged _ _ _ _ _ Hc Hsnap Hdisk Heq). }
  rewrite (loop_body_after upd _ _ _ _ Hb).
  rewrite (bind_ok _ _ _ _ _ (rename_step_none _ _ Hr)).
  by rewrite (write_step_run upd _ _ _ _ Hu).
Qed.

(** X16. Right after [read_all_file_lines], an edit of a tracked file that
    is neither a creation, a deletion nor a rename is applied without any
    question or message: the conflict check finds the disk equal to the
    snapshot. *)
Theorem edit_after_snapshot_is_silent (keys : list Path) e w rest text
  new_lines :
  (∀ p, p ∈ keys ↔ p ∈ files w) →
  tracked_on_disk w →
  is_creation e = false → is_deletion e = false →
  rename_file_path e = None →
  file_path e ∈ files w →
  disk w !! file_path e = Some text →
  upd e (split_lines text) = inr new_lines →
  ∃ w1 w2,
    read_all_file_lines keys w = (w1, inr tt) ∧
    write_changes_to_files upd (e :: rest) w1
    = write_changes_to_files upd rest w2 ∧
    disk w2 = <[file_path e := join_lines new_lines]> (disk w) ∧
    asked w2 = asked w ∧ sent w2 = sent w.
Proof.
  intros Hkeys Ht Hc Hd Hr Hf Hdisk Hu.
  destruct (read_each_found keys (set_file_lines (fun _ => ∅) w))
    as (w1 & Hrun & Hd1 & Hf1 & _ & Ha1 & Hs1 & Hl1).
  { intros p Hp. apply Ht. by apply Hkeys. }
  simpl in *.
  assert (file_lines w1 !! file_path e = Some (split_lines text)) as Hsnap.
  { rewrite Hl1, decide_True by (by apply Hkeys). by rewrite Hdisk. }
  eexists w1, _. split; [exact Hrun|]. split.
  - apply batch_step.
    apply (plain_edit_run e w1 (split_lines text) text new_lines);
      try done; by rewrite ?Hf1, ?Hd1.
  - simpl. by rewrite Hd1, Ha1, Hs1.
Qed.
End Snapshot.

(** ** Further behaviour of the loop body *)

Section Edges.
Variable upd : FileEdit → list string → Err (list string).
Implicit Types (e : FileEdit) (w : World) (p : Path).

Lemma creation_edit_run e w new_lines :
  is_creation e = true → is_deletion e = false →
  rename_file_path e = None →
  disk w !! file_path e = None →
  upd e [] = inr new_lines →
  loop_body upd e w
  = (set_disk (insert (file_path e) (join_lines new_lines))
       (set_disk (insert (file_path e) "")
          (set_files (fun fs => fs ∪ {[file_path e]}) w)), inr tt).
Proof.
  intros Hc Hd Hr Hdisk Hu.
  pose proof (check_target_creation _ _ Hc Hdisk) as Hck.
  set (w1 := set_disk _ _) in Hck.
  assert (before_rename e w = (w1, inr (Some []))) as Hb.
  { rewrite (before_rename_run _ _ _ _ _ Hck (confirm_deletion_skip _ _ _ Hd)).
    by rewrite (conflict_check_creation _ _ _ Hc). }
  rewrite (loop_body_after upd _ _ _ _ Hb).
  rewrite (bind_ok _ _ _ _ _ (rename_step_none _ _ Hr)).
  by rewrite (write_step_run upd _ _ _ _ Hu).
Qed.

(** X17. A creation edit on a free path creates the file with the lines
    computed from no lines at all, tracks the path, and asks and says
    nothing. *)
Theorem creation_edit_creates_file e w rest new_lines :
  is_creation e = true → is_deletion e = false →
  rename_file_path e = None →
  disk w !! file_path e = None →
  upd e [] = inr new_lines →
  ∃ w', write_changes_to_files upd (e :: rest) w
        = write_changes_to_files upd rest w' ∧
        disk w' = <[file_path e := join_lines new_lines]> (disk w) ∧
        files w' = files w ∪ {[file_path e]} ∧
        asked w' = asked w ∧ sent w' = sent w.
Proof.
  intros Hc Hd Hr Hdisk Hu. eexists. split.
  { apply batch_step. by apply creation_edit_run. }
  simpl. by rewrite insert_insert_eq.
Qed.



(** X19. When the disk content differs from the snapshot and the user
    accepts the conflict prompt, the file is overwritten with the lines
    computed from the snapshot; the warning is the only message. *)
Theorem accepted_conflict_overwrites e w rest stored text new_lines :
  is_creation e = false → is_deletion e = false →
  rename_file_path e = None →
  file_path e ∈ files w →
  disk w !! file_path e = Some text →
  file_lines w !! file_path e = Some stored →
  stored ≠ split_lines text →
  replies w (asked w) = Some true →
  upd e stored = inr new_lines →
  ∃ w', write_changes_to_files upd (e :: rest) w
        = write_changes_to_files upd rest w' ∧
        disk w' = <[file_path e := join_lines new_lines]> (disk w) ∧
        asked w' = S (asked w) ∧
        sent w' = (sent w ++ [conflict_warning (file_path e)])%list.
Proof.
  intros Hc Hd Hr Hf Hdisk Hsnap Hne Hrep Hu. eexists. split.
  { apply batch_step.
    assert (before_rename e w =
            (answered [conflict_warning (file_path e)] w, inr (Some stored)))
      as Hb.
    { rewrite (before_rename_run _ _ _ _ _
                 (check_target_existing _ _ Hc ltac:(eauto) Hf)
                 (confirm_deletion_skip _ _ _ Hd)).
      by rewrite (conflict_check_accepted _ _ _ _ _ Hc Hsnap Hdisk Hne Hrep). }
    rewrite (loop_body_after upd _ _ _ _ Hb).
    rewrite (bind_ok _ _ _ _ _ (rename_step_none _ _ Hr)).
    by rewrite (write_step_run upd _ _ _ _ Hu). }
  done.
Qed.

(** X21. A creation edit is not undone when its rename fails: if the
    rename target is the edit's own path or an existing file, the batch
    stops with [MentatError] and the empty file just created stays on
    disk and tracked. *)
Theorem failed_rename_leaves_created_file e w rest target :
  is_creation e = true → is_deletion e = false →
  disk w !! file_path e = None →
  rename_file_path e = Some target →
  target = file_path e ∨ is_Some (disk w !! target) →
  ∃ w1 msg,
    write_changes_to_files upd (e :: rest) w = (w1, inl (MentatError msg)) ∧
    disk w1 = <[file_path e := ""]> (disk w) ∧
    files w1 = files w ∪ {[file_path e]}.
Proof.
  intros Hc Hd Hdisk Hr Ht.
  pose proof (check_target_creation _ _ Hc Hdisk) as Hck.
  set (w1 := set_disk _ _) in Hck.
  assert (before_rename e w = (w1, inr (Some []))) as Hb.
  { rewrite (before_rename_run _ _ _ _ _ Hck (confirm_deletion_skip _ _ _ Hd)).
    by rewrite (conflict_check_creation _ _ _ Hc). }
  assert (is_Some (disk w1 !! target)) as Hex.
  { simpl. destruct (decide (file_path e = target)) as [->|Hne].
    - rewrite lookup_insert_eq. eauto.
    - rewrite lookup_insert_ne by done. by destruct Ht. }
  destruct (rename_step_exists _ _ _ Hr Hex) as [msg Hm].
  exists w1, msg. split; [|done].
  cbn [write_changes_to_files]. apply bind_raise.
  rewrite (loop_body_after upd _ _ _ _ Hb). by apply bind_raise.
Qed.

(** X22. Writing a file does not refresh its snapshot: after an edit has
    changed a file, the conflict check of a later edit of the same batch
    finds the disk different from the snapshot and asks the user. *)
Theorem second_edit_sees_conflict e e2 w stored text new_lines :
  is_creation e = false → is_deletion e = false →
  rename_file_path e = None →
  file_path e ∈ files w →
  disk w !! file_path e = Some text →
  file_lines w !! file_path e = Some stored →
  stored = split_lines text →
  upd e stored = inr new_lines →
  stored ≠ split_lines (join_lines new_lines) →
  is_creation e2 = false →
  ∃ w1 w2 r more,
    loop_body upd e w = (w1, inr tt) ∧
    conflict_check e2 (file_path e) w1 = (w2, r) ∧
    asked w2 = S (asked w1) ∧
    sent w2 = (sent w1 ++ conflict_warning (file_path e) :: more)%list.
Proof.
  intros Hc Hd Hr Hf Hdisk Hsnap Heq Hu Hne Hc2.
  pose proof (plain_edit_run upd _ _ _ _ _ Hc Hd Hr Hf Hdisk Hsnap Heq Hu)
    as Hrun.
  set (w1 := set_disk _ _) in Hrun.
  assert (disk w1 !! file_path e = Some (join_lines new_lines)) as Hd1.
  { simpl. apply lookup_insert_eq. }
  destruct (decide (replies w1 (asked w1) = Some true)) as [Hrep|Hrep].
  - exists w1. do 2 eexists. exists []. split; [exact Hrun|].
    split; [by apply (conflict_check_accepted e2 _ w1 stored
                        (join_lines new_lines))|done].
  - exists w1. do 2 eexists. exists [not_applying (file_path e)].
    split; [exact Hrun|].
    split; [by apply (conflict_check_declined e2 _ w1 stored
                        (join_lines new_lines))|done].
Qed.
End Edges.

(** ** Loading the configuration *)

Import ConfigLoading.

Section LoadingFacts.
Context {V : Type}.
Variable json_load : string → option (gmap string V).
Variable user_config_path : Path.
Variable default_config_text : string.
Implicit Types (w : World) (key : string).

Lemma load_step (path : Path) (warning : string * option string) w :
  (if bool_decide (is_Some (disk w !! path)) then
     text ← read_text path;
     match json_load text with
     | Some config => mret config
     | None => stream_send (fst warning) (snd warning) ;; mret ∅
     end
   else mret ∅) w
  = (mkWorld (disk w) (files w) (file_lines w) (replies w) (asked w)
             (sent w ++ if invalid V json_load w path then [warning] else []),
     inr (loaded V json_load w path)).
Proof.
  unfold loaded, invalid, read_text. run_m.
  destruct w as [dk fs fl rp ak st]. simpl.
  destruct (dk !! path) as [text|] eqn:E; simpl.
  - rewrite E.
    destruct (json_load text); simpl; [by rewrite app_nil_r|].
    by destruct warning.
  - by rewrite app_nil_r.
Qed.

Lemma init_run w :
  let warnings :=
    ((if invalid V json_load w user_config_path then [user_warning] else [])
     ++ (if invalid V json_load w config_file_name
         then [project_warning] else []))%list in
  ∃ w', disk w' = disk w ∧ sent w' = (sent w ++ warnings)%list ∧
    match json_load default_config_text with
    | Some default =>
        init V json_load user_config_path default_config_text w
        = (w', inr {| user_config := loaded V json_load w user_config_path;
                      project_config := loaded V json_load w config_file_name;
                      default_config := default |})
    | None =>
        init V json_load user_config_path default_config_text w
        = (w', inl (ValueError None))
    end.
Proof.
  intros warnings. unfold init.
  rewrite (bind_ok (path_exists user_config_path) _ w w _ eq_refl).
  rewrite (bind_ok _ _ _ _ _ (load_step user_config_path user_warning w)).
  cbv zeta.
  match goal with
  | |- context [(path_exists _ ≫= _) ?w1] =>
      rewrite (bind_ok (path_exists config_file_name) _ w1 w1 _ eq_refl);
      rewrite (bind_ok _ _ _ _ _
                 (load_step config_file_name project_warning w1))
  end.
  eexists. split; [|split].
  3:{ destruct (json_load default_config_text); reflexivity. }
  - reflexivity.
  - simpl. unfold warnings. by rewrite <- app_assoc.
Qed.


(** X24. When the project configuration file is not valid JSON, every
    key is resolved as if the project had no configuration: from the
    user configuration, then from the default one. *)
Theorem invalid_project_config_falls_back w text default key :
  disk w !! config_file_name = Some text →
  json_load text = None →
  json_load default_config_text = Some default →
  ∃ w' self,
    init V json_load user_config_path default_config_text w = (w', inr self) ∧
    project_warning ∈ sent w' ∧
    _get_key self key =
      match loaded V json_load w user_config_path !! key with
      | Some v => inr v
      | None =>
          match default !! key with
          | Some v => inr v
          | None =>
              inl (ValueError
                     (Some ("No value for config key " ++ key ++ " found")))
          end
      end.
Proof.
  intros Hdisk Hbad Hdef.
  destruct (init_run w) as (w' & _ & Hsent & Hrun).
  rewrite Hdef in Hrun. eexists w', _. split; [exact Hrun|]. split.
  - rewrite Hsent. unfold invalid at 2. rewrite Hdisk, Hbad.
    apply elem_of_app. right. apply elem_of_app. right. by left.
  - unfold _get_key, getitem. simpl.
    assert (loaded V json_load w config_file_name = ∅) as ->.
    { unfold loaded. by rewrite Hdisk, Hbad. }
    rewrite (py_in_false _ _ (lookup_empty key)).
    destruct (loaded V json_load w user_config_path !! key) as [v|] eqn:Hu.
    { by rewrite (py_in_true _ _ _ Hu). }
    rewrite (py_in_false _ _ Hu).
    destruct (default !! key) as [v|] eqn:Hd.
    { by rewrite (py_in_true _ _ _ Hd). }
    by rewrite (py_in_false _ _ Hd).
Qed.
End LoadingFacts.

Section AccessorFacts.
Variable int_of_str : string → option Z.

(** X25. [maximum_context] reports a value that Python treats as false
    ([None], [False], [0], the empty string, list or dict) as no limit at
    all, a non-zero integer as itself, refuses a non-empty list or dict
    with [TypeError], and lets the [ValueError] of a missing key through. *)
Theorem maximum_context_of_value (self : ConfigManager pyval) :
  match _get_key self "maximum-context" with
  | inl err => maximum_context int_of_str self = inl err
  | inr v =>
      (v ∈ [PNone; PBool false; PInt 0; PStr ""; PList []; PDict []] →
       maximum_context int_of_str self = inr None) ∧
      (∀ z, v = PInt z → z ≠ 0 →
       maximum_context int_of_str self = inr (Some z)) ∧
      (∀ item items, v = PList (item :: items) →
       maximum_context int_of_str self = inl TypeError) ∧
      (∀ item items, v = PDict (item :: items) →
       maximum_context int_of_str self = inl TypeError)
  end.
Proof.
  unfold maximum_context.
  destruct (_get_key self "maximum-context") as [err|v]; [reflexivity|].
  split; [|split; [|split]].
  - intros Hv. repeat (apply elem_of_cons in Hv as [->|Hv]; [reflexivity|]).
    by apply elem_of_nil in Hv.
  - intros z -> Hz. simpl. unfold mbind, err_bind. simpl.
    by rewrite (proj2 (Z.eqb_neq z 0) Hz).
  - by intros item items ->.
  - by intros item items ->.
Qed.
End AccessorFacts.

(** ** The further statements on the sample inputs *)

Section MoreSamples.
Import Examples.

Local Abbreviation upd := CodeFileManager.get_updated_file_lines.

Lemma sample_partial_marker :
  _could_be_special "@@st" = true.
Proof.
  exact (could_be_special_prefix_closed "@@st" "art" eq_refl).
Defined.

Lemma sample_decoded_shape :
  ∃ di fe hc,
    _special_block (loads (range_header "delete" 2 3)) no_int_of_str
                   snapshot ∅ block = inr (di, fe, hc) ∧
    ¬ (is_creation fe = true ∧ is_deletion fe = true) ∧
    file_name di = Some (file_path fe).
Proof.
  pose (r := _special_block (loads (range_header "delete" 2 3))
               no_int_of_str snapshot ∅ block).
  assert (∃ di fe hc, r = inr (di, fe, hc)) as (di & fe & hc & Hrun).
  { vm_compute. eauto. }
  exists di, fe, hc. split; [exact Hrun|].
  destruct (decoded_edit_shape (loads (range_header "delete" 2 3))
              no_int_of_str snapshot ∅ block di fe hc Hrun)
    as (H1 & _ & _ & _ & _ & _ & H2 & _).
  split; [exact H1|exact H2].
Defined.

Lemma sample_missing_start_line :
  _special_block (loads open_range_header) no_int_of_str snapshot ∅ block
  = inl TypeError.
Proof.
  exact (proj1 (missing_field_is_type_error (loads open_range_header)
                  no_int_of_str snapshot ∅ block open_range_header
                  open_range_fields _BlockParserAction.Replace
                  eq_refl eq_refl eq_refl)
               (or_introl eq_refl) eq_refl).
Defined.

Lemma sample_create_file :
  ∃ di fe hc,
    _special_block (loads create_header) no_int_of_str ∅ ∅ block
    = inr (di, fe, hc) ∧
    is_creation fe = true ∧ is_deletion fe = false ∧ replacements fe = [].
Proof.
  destruct (file_actions_decode (loads create_header) no_int_of_str ∅ ∅
              block create_header create_fields
              _BlockParserAction.CreateFile "new.txt"
              eq_refl eq_refl eq_refl eq_refl) as [H _].
  destruct (H eq_refl) as (di & fe & hc & Hrun & Hc & Hd & Hr & _).
  exists di, fe, hc. by repeat split.
Defined.

Lemma sample_write_then_read :
  (write_text "f.txt" (join_lines ["X"; "Y"]) ≫= (fun _ => read_file "f.txt"))
    (world None)
  = (set_disk (insert "f.txt" (join_lines ["X"; "Y"])) (world None),
     inr ["X"; "Y"]).
Proof.
  exact (write_then_read "f.txt" ["X"; "Y"] (world None)
           ltac:(repeat constructor)).
Defined.

Lemma sample_read_then_write :
  disk (write_text "f.txt" (join_lines ["a"]) (world None)).1
  = disk (world None).
Proof.
  exact (read_then_write "f.txt" "a" ["a"] (world None) (world None)
           eq_refl eq_refl eq_refl).
Defined.

Lemma sample_keys :
  ∀ p, p ∈ ["f.txt"] ↔ p ∈ files (drifted None).
Proof.
  intros p. simpl. by rewrite list_elem_of_singleton, elem_of_singleton.
Defined.

Lemma sample_drifted_tracked : tracked_on_disk (drifted None).
Proof.
  intros p Hp. simpl in Hp. apply elem_of_singleton in Hp as ->. by exists "b".
Defined.

Lemma sample_snapshot :
  ∃ w', read_all_file_lines ["f.txt"] (drifted None) = (w', inr tt) ∧
        file_lines w' !! "f.txt" = Some ["b"].
Proof.
  destruct (snapshot_of_tracked_files ["f.txt"] (drifted None)
              sample_keys sample_drifted_tracked)
    as (w' & Hrun & _ & _ & _ & _ & Hl).
  exists w'. split; [exact Hrun|]. exact (Hl "f.txt").
Defined.

Lemma sample_snapshot_missing :
  ∃ w', read_all_file_lines ["f.txt"; "g.txt"] (world None)
        = (w', inl FileNotFoundError) ∧
        disk w' = disk (world None).
Proof.
  destruct (snapshot_of_missing_file ["f.txt"; "g.txt"] "g.txt" (world None))
    as (w' & Hrun & Hd & _).
  - apply elem_of_cons. right. apply elem_of_cons. by left.
  - reflexivity.
  - exists w'. by split.
Defined.

Lemma sample_silent_edit :
  ∃ w1 w2,
    read_all_file_lines ["f.txt"] (drifted None) = (w1, inr tt) ∧
    write_changes_to_files upd [replace_first] w1
    = write_changes_to_files upd [] w2 ∧
    disk w2 = <["f.txt" := "X"]> (disk (drifted None)) ∧
    asked w2 = 0%nat ∧ sent w2 = [].
Proof.
  exact (edit_after_snapshot_is_silent upd ["f.txt"] replace_first
           (drifted None) [] "b" ["X"] sample_keys sample_drifted_tracked
           eq_refl eq_refl eq_refl ltac:(vm_compute; reflexivity)
           eq_refl eq_refl).
Defined.

Lemma sample_creation :
  ∃ w', write_changes_to_files upd [create "g.txt"] (world None)
        = write_changes_to_files upd [] w' ∧
        disk w' = <["g.txt" := ""]> (disk (world None)) ∧
        files w' = files (world None) ∪ {["g.txt"]} ∧
        asked w' = 0%nat ∧ sent w' = [].
Proof.
  exact (creation_edit_creates_file upd (create "g.txt") (world None) [] []
           eq_refl eq_refl eq_refl eq_refl eq_refl).
Defined.


Lemma sample_conflict_accepted :
  ∃ w', write_changes_to_files upd [replace_first] (drifted (Some true))
        = write_changes_to_files upd [] w' ∧
        disk w' = <["f.txt" := "X"]> (disk (drifted (Some true))) ∧
        asked w' = 1%nat ∧
        sent w' = [conflict_warning "f.txt"].
Proof.
  exact (accepted_conflict_overwrites upd replace_first
           (drifted (Some true)) [] ["a"] "b" ["X"] eq_refl eq_refl eq_refl
           ltac:(vm_compute; reflexivity) eq_refl eq_refl
           ltac:(discriminate) eq_refl eq_refl).
Defined.

Lemma sample_failed_rename :
  ∃ w1 msg,
    write_changes_to_files upd [create_and_rename] (world None)
    = (w1, inl (MentatError msg)) ∧
    disk w1 = <["g.txt" := ""]> (disk (world None)) ∧
    files w1 = files (world None) ∪ {["g.txt"]}.
Proof.
  apply (failed_rename_leaves_created_file upd create_and_rename
           (world None) [] "f.txt" eq_refl eq_refl eq_refl eq_refl).
  right. by exists "a".
Defined.

Lemma sample_second_edit :
  ∃ w1 w2 r more,
    loop_body upd replace_first (world None) = (w1, inr tt) ∧
    conflict_check replace_first "f.txt" w1 = (w2, r) ∧
    asked w2 = S (asked w1) ∧
    sent w2 = (sent w1 ++ conflict_warning "f.txt" :: more)%list.
Proof.
  exact (second_edit_sees_conflict upd replace_first replace_first
           (world None) ["a"] "a" ["X"] eq_refl eq_refl eq_refl
           ltac:(vm_compute; reflexivity) eq_refl eq_refl eq_refl eq_refl
           ltac:(discriminate) eq_refl).
Defined.

Lemma sample_bad_project_config :
  ∃ w' self,
    init Z load_empty_object "user.json" "{}" bad_project_config
    = (w', inr self) ∧
    project_warning ∈ sent w' ∧
    _get_key self "model"
    = inl (ValueError (Some "No value for config key model found")).
Proof.
  exact (invalid_project_config_falls_back load_empty_object "user.json"
           "{}" bad_project_config "oops" ∅ "model"
           eq_refl eq_refl eq_refl).
Defined.
End MoreSamples.
